(** * run_block: CAT spend extraction from an executed block generator

    A shallow embedding of [tools/run_block.py].  The Python functions are
    kept under their own names.  The collaborators imported from the chia
    libraries (the CLVM execution engine, the curried-template matcher, the
    per-height block store) are the fields of the class [Chia]; every call
    to one of them is recorded in a trace, so that statements about what the
    pipeline does or does not invoke, and in which order, can be proved. *)

From Stdlib Require Import List String Ascii Strings.Byte NArith ZArith Bool Lia.
Import ListNotations.

Set Implicit Arguments.
Set Warnings "-register-all".
Local Open Scope list_scope.

(** ** Python values *)

(** [bytes]: an immutable sequence of octets. *)
Definition bytes := list byte.

(** [str]: a sequence of Unicode code points. *)
Definition pystr := list N.

(** A string literal of ASCII characters as a [str]. *)
Definition str (s : string) : pystr :=
  map N_of_ascii (list_ascii_of_string s).

Fixpoint str_eqb (s t : pystr) : bool :=
  match s, t with
  | [], [] => true
  | a :: s', b :: t' => N.eqb a b && str_eqb s' t'
  | _, _ => false
  end.

Definition bytes_eqb (a b : bytes) : bool :=
  str_eqb (map Byte.to_N a) (map Byte.to_N b).

(** The exceptions that the modelled code can raise. *)
Inductive exn :=
| ConsensusError (err : N)          (* chia.util.errors.ConsensusError(Err(code)) *)
| RuntimeError (msg : string)
| AssertionError
| IndexError
| TypeError
| AttributeError
| ValueError
| UnicodeDecodeError
| FileNotFoundError
| LibraryError (code : N).          (* an exception raised inside a collaborator *)

(** The outcome of evaluating a Python expression. *)
Inductive res (A : Type) :=
| Ok (a : A)
| Raise (e : exn).
Arguments Raise {A} e.

Definition rbind {A B} (m : res A) (k : A -> res B) : res B :=
  match m with
  | Ok a => k a
  | Raise e => Raise e
  end.

Declare Scope res_scope.
Delimit Scope res_scope with res.
Notation "x <~ m ;; k" := (rbind m (fun x => k))
  (at level 61, m at next level, right associativity) : res_scope.

(** *** [bytes.hex()] *)

Definition hex_digit (n : N) : N :=
  if (n <? 10)%N then (48 + n)%N else (87 + n)%N.

Definition hex_byte (b : byte) : pystr :=
  [hex_digit (Byte.to_N b / 16); hex_digit (Byte.to_N b mod 16)].

Definition hex (b : bytes) : pystr := flat_map hex_byte b.

(** *** [bytes.decode("utf-8")]

    The strict decoder: shortest forms only, no surrogates, nothing above
    U+10FFFF. *)

Definition is_cont (b : N) : bool := ((128 <=? b) && (b <=? 191))%N.

Definition cont (b : N) : N := (b mod 64)%N.

Definition in_range (lo hi b : N) : bool := ((lo <=? b) && (b <=? hi))%N.

Fixpoint utf8_decode (l : list N) : option pystr :=
  match l with
  | [] => Some []
  | b0 :: r0 =>
    if (b0 <? 128)%N then option_map (cons b0) (utf8_decode r0)
    else if in_range 194 223 b0 then
      match r0 with
      | b1 :: r1 =>
        if is_cont b1
        then option_map (cons ((b0 mod 32) * 64 + cont b1)%N) (utf8_decode r1)
        else None
      | _ => None
      end
    else if in_range 224 239 b0 then
      match r0 with
      | b1 :: b2 :: r2 =>
        if is_cont b1 && is_cont b2
           && (if (b0 =? 224)%N then (160 <=? b1)%N else true)
           && (if (b0 =? 237)%N then (b1 <=? 159)%N else true)
        then option_map
               (cons ((b0 mod 16) * 4096 + cont b1 * 64 + cont b2)%N)
               (utf8_decode r2)
        else None
      | _ => None
      end
    else if in_range 240 244 b0 then
      match r0 with
      | b1 :: b2 :: b3 :: r3 =>
        if is_cont b1 && is_cont b2 && is_cont b3
           && (if (b0 =? 240)%N then (144 <=? b1)%N else true)
           && (if (b0 =? 244)%N then (b1 <=? 143)%N else true)
        then option_map
               (cons ((b0 mod 8) * 262144 + cont b1 * 4096
                      + cont b2 * 64 + cont b3)%N)
               (utf8_decode r3)
        else None
      | _ => None
      end
    else None
  end.

Definition decode (b : bytes) : res pystr :=
  match utf8_decode (map Byte.to_N b) with
  | Some s => Ok s
  | None => Raise UnicodeDecodeError
  end.

(** *** The values a CLVM program converts to under [as_python()], and the
    integers that iterating over a [bytes] yields. *)
Inductive pyval :=
| PInt (z : N)
| PBytes (b : bytes)
| PList (l : list pyval)
| PTuple (a b : pyval).

(** [v[i]] *)
Definition getitem (v : pyval) (i : nat) : res pyval :=
  match v with
  | PInt _ => Raise TypeError
  | PBytes b =>
    match nth_error b i with
    | Some x => Ok (PInt (Byte.to_N x))
    | None => Raise IndexError
    end
  | PList l =>
    match nth_error l i with
    | Some x => Ok x
    | None => Raise IndexError
    end
  | PTuple a b =>
    match i with
    | 0 => Ok a
    | 1 => Ok b
    | _ => Raise IndexError
    end
  end.

(** [len(v)] *)
Definition len (v : pyval) : res nat :=
  match v with
  | PInt _ => Raise TypeError
  | PBytes b => Ok (List.length b)
  | PList l => Ok (List.length l)
  | PTuple _ _ => Ok 2
  end.

(** [for x in v]: the items the loop visits. *)
Definition iter (v : pyval) : res (list pyval) :=
  match v with
  | PInt _ => Raise TypeError
  | PBytes b => Ok (map (fun x => PInt (Byte.to_N x)) b)
  | PList l => Ok l
  | PTuple a b => Ok [a; b]
  end.

(** [type(v) == list] *)
Definition is_list (v : pyval) : bool :=
  match v with
  | PList _ => true
  | _ => false
  end.

(** [v == c] for [c] a [bytes] constant: only a [bytes] of the same
    content compares equal. *)
Definition eq_bytes (v : pyval) (c : bytes) : bool :=
  match v with
  | PBytes b => bytes_eqb b c
  | _ => false
  end.

(** [v.hex()]: a method of [bytes] only. *)
Definition py_hex (v : pyval) : res pystr :=
  match v with
  | PBytes b => Ok (hex b)
  | _ => Raise AttributeError
  end.

(** [v.decode("utf-8")]: a method of [bytes] only. *)
Definition py_decode (v : pyval) : res pystr :=
  match v with
  | PBytes b => decode b
  | _ => Raise AttributeError
  end.

(** *** CLVM values and their conversion

    A CLVM value is an atom or a pair; the empty atom is nil, which also
    ends a list. *)
Inductive sexp :=
| Atom (b : bytes)
| Pair (first rest : sexp).

(** The list [(x1 x2 ... xn)]. *)
Definition slist (l : list sexp) : sexp := fold_right Pair (Atom []) l.

(** [as_python] of the clvm library, which [Program.as_python()] calls:
    an atom is its bytes; a pair whose right side converts to [b""] is a
    list of one element, a pair whose right side converts to a list puts
    its left side in front of that list, and any other pair is a tuple. *)
Fixpoint clvm_as_python (x : sexp) : pyval :=
  match x with
  | Atom b => PBytes b
  | Pair first rest =>
    let l := clvm_as_python first in
    match clvm_as_python rest with
    | PBytes [] => PList [l]
    | PList v => PList (l :: v)
    | r => PTuple l r
    end
  end.

(** No list inside the value is empty. *)
Fixpoint proper (v : pyval) : bool :=
  match v with
  | PInt _ | PBytes _ => true
  | PList l =>
    match l with
    | [] => false
    | _ :: _ => forallb proper l
    end
  | PTuple a b => proper a && proper b
  end.

(** ** The chia data types *)

(** [chia.consensus.constants.ConsensusConstants]: the two fields read. *)
Record ConsensusConstants := {
  MAX_BLOCK_COST_CLVM : N;
  COST_PER_BYTE : N
}.

(** The types that [run_block.py] imports and never looks inside. *)
Class Types := {
  (** [Program]: puzzles, solutions and curried arguments. *)
  Program : Type;
  (** [SerializedProgram]: generator bytecode. *)
  SerializedProgram : Type;
  (** [ConditionOpcode]: an enumeration whose members are [bytes]. *)
  ConditionOpcode : Type;
  (** an open file, and a parsed JSON document *)
  File : Type;
  Json : Type
}.

Section Data.

Context {types : Types}.

(** [chia.types.condition_with_args.ConditionWithArgs] *)
Record ConditionWithArgs := {
  opcode : ConditionOpcode;
  vars : list bytes
}.

(** [chia.types.name_puzzle_condition.NPC] *)
Record NPC := {
  coin_name : bytes;
  puzzle_hash : bytes;
  conditions : list (ConditionOpcode * list ConditionWithArgs)
}.

(** [chia.types.generator_types.GeneratorArg] and [BlockGenerator] *)
Record GeneratorArg := {
  block_height : N;
  generator : SerializedProgram
}.

Record BlockGenerator := {
  program : SerializedProgram;
  generator_refs : list GeneratorArg
}.

(** The result of [get_name_puzzle_conditions]. *)
Record NPCResult := {
  error : option N;
  npc_list : list NPC;
  cost : N
}.

(** [chia.types.full_block.FullBlock]: the two fields read. *)
Record FullBlock := {
  transactions_generator : option SerializedProgram;
  transactions_generator_ref_list : list N
}.

(** [class CAT] *)
Record CAT := {
  tail_hash : pystr;
  memo : pystr;
  npc : NPC
}.

(** The dictionaries, lists and strings handed to [json.dumps]. *)
Inductive json :=
| JStr (s : pystr)
| JList (l : list json)
| JDict (kv : list (pystr * json)).

(** ** Traces *)

(** One event per call that leaves [run_block.py]. *)
Inductive event :=
| EGenerator (g : BlockGenerator)     (* get_name_puzzle_conditions *)
| EResolve (name : bytes)             (* get_puzzle_and_solution_for_coin *)
| EMatch (puzzle : Program)           (* match_cat_puzzle *)
| ERun (puzzle solution : Program)    (* puzzle.run(solution) *)
| EOpen (height : N)                  (* open(f"{height}.json") *)
| ELoad (f : File)                    (* json.load *)
| EConfig                             (* load_config *)
| EPrint (j : json).                  (* print(json.dumps(...)) *)

(** A computation: the calls it made, and how it ended. *)
Definition M (A : Type) : Type := (list event * res A)%type.

Definition ret {A} (a : A) : M A := ([], Ok a).

Definition raise {A} (e : exn) : M A := ([], Raise e).

Definition bind {A B} (m : M A) (k : A -> M B) : M B :=
  match m with
  | (t, Ok a) => let (t', r) := k a in (t ++ t', r)
  | (t, Raise e) => (t, Raise e)
  end.

(** A call of a collaborator. *)
Definition call {A} (ev : event) (r : res A) : M A := ([ev], r).

(** A computation that calls nothing. *)
Definition pure {A} (r : res A) : M A := ([], r).

Definition trace {A} (m : M A) : list event := fst m.
Definition outcome {A} (m : M A) : res A := snd m.

End Data.

Declare Scope run_scope.
Delimit Scope run_scope with run.
Notation "x <- m ;; k" := (bind m (fun x => k))
  (at level 61, m at next level, right associativity) : run_scope.
Notation "' p <- m ;; k" := (bind m (fun x => match x with p => k end))
  (at level 61, p pattern, m at next level, right associativity) : run_scope.

(** ** The chia collaborators

    What [run_block.py] imports and calls.  None of it is defined in the
    file; each function is a parameter of the development. *)
Class Chia {types : Types} := {
  opcode_eqb : ConditionOpcode -> ConditionOpcode -> bool;
  opcode_eqb_eq : forall a b, opcode_eqb a b = true <-> a = b;
  (** [opcode.name] *)
  opcode_name : ConditionOpcode -> pystr;
  (** the [bytes] value of [ConditionOpcode.CREATE_COIN] *)
  CREATE_COIN : bytes;
  (** whether [Err(code)] names a member of the enumeration [Err] *)
  Err_member : N -> bool;
  (** [get_name_puzzle_conditions(generator, max_cost, cost_per_byte=...,
      mempool_mode=...)] *)
  get_name_puzzle_conditions :
    BlockGenerator -> N -> N -> bool -> res NPCResult;
  (** [get_puzzle_and_solution_for_coin(generator, coin_name=...,
      max_cost=...)] *)
  get_puzzle_and_solution_for_coin :
    BlockGenerator -> bytes -> N -> res (N * Program * Program);
  (** [match_cat_puzzle(puzzle)]: the flag and the curried arguments *)
  match_cat_puzzle : Program -> res (bool * list Program);
  (** [puzzle.run(solution)] *)
  run : Program -> Program -> res Program;
  (** [program.as_python()] *)
  as_python : Program -> pyval;
  (** [bytes(program)] *)
  to_bytes : Program -> bytes;
  (** [SerializedProgram.fromhex(s)] *)
  fromhex : pystr -> res SerializedProgram;
  (** [open(f"{height}.json", "r")]: [None] when there is no such file *)
  open_height : N -> option File;
  (** [json.load(f)] *)
  json_load : File -> res Json;
  (** [j["block"]["transactions_generator"]]: JSON [null] is [None] *)
  get_transactions_generator : Json -> res (option pystr);
  (** [j["block"]["transactions_generator_ref_list"]] *)
  get_transactions_generator_ref_list : Json -> res (list N);
  (** [load_config], the network's overrides and [replace_str_to_bytes] *)
  load_constants : res ConsensusConstants
}.

(** ** The functions of [run_block.py] *)

Section RunBlock.

Context {types : Types} {chia : Chia}.

Local Open Scope res_scope.
Local Open Scope run_scope.

(** [[f(x) for x in l]], where [f] may raise. *)
Fixpoint map_res {A B} (f : A -> res B) (l : list A) : res (list B) :=
  match l with
  | [] => Ok []
  | x :: l' => y <~ f x ;; ys <~ map_res f l' ;; Ok (y :: ys)
  end.

(** *** Serialisation (lines 65-86) *)

Definition condition_with_args_to_dict (condition_with_args : ConditionWithArgs)
  : json :=
  JDict [ (str "condition_opcode", JStr (opcode_name (opcode condition_with_args)));
          (str "arguments", JList (map (fun arg => JStr (hex arg))
                                       (vars condition_with_args))) ].

Definition condition_list_to_dict
    (condition_list : ConditionOpcode * list ConditionWithArgs) : res json :=
  if forallb (fun cwa => opcode_eqb (fst condition_list) (opcode cwa))
             (snd condition_list)
  then Ok (JList (map condition_with_args_to_dict (snd condition_list)))
  else Raise AssertionError.

Definition npc_to_dict (npc : NPC) : res json :=
  cs <~ map_res
          (fun c =>
             d <~ condition_list_to_dict c ;;
             Ok (JDict [ (str "condition_type", JStr (opcode_name (fst c)));
                         (str "conditions", d) ]))
          (conditions npc) ;;
  Ok (JDict [ (str "coin_name", JStr (hex (coin_name npc)));
              (str "conditions", JList cs);
              (str "puzzle_hash", JStr (hex (puzzle_hash npc))) ]).

Definition cat_to_dict (self : CAT) : res json :=
  d <~ npc_to_dict (npc self) ;;
  Ok (JDict [ (str "tail_hash", JStr (tail_hash self));
              (str "memo", JStr (memo self));
              (str "npc", d) ]).

(** *** The memo scan (lines 108-126) *)

(** The retirement address, as line 120 spells it. *)
Definition retirement_hex : pystr :=
  str "0000000000000000000000000000000000000000000000000000000000000000".

(** How one pass through the loop body ends: the loop goes on to the next
    condition, or [break]s with the value [memo] then has. *)
Inductive step :=
| Next
| Break (memo : pystr).

(** The body of the loop of line 112, for one [condition]. *)
Definition scan_condition (memo : pystr) (condition : pyval) : res step :=
  c0 <~ getitem condition 0 ;;
  if eq_bytes c0 CREATE_COIN then
    n <~ len condition ;;
    if 4 <=? n then
      c3 <~ getitem condition 3 ;;
      if negb (is_list c3) then Ok Next
      else
        c30 <~ getitem c3 0 ;;
        h <~ py_hex c30 ;;
        if str_eqb h retirement_hex then
          n3 <~ len c3 ;;
          if 2 <=? n3 then
            c31 <~ getitem c3 1 ;;
            m <~ py_decode c31 ;;
            Ok (Break m)
          else Ok (Break memo)
        else Ok Next
    else Ok Next
  else Ok Next.

(** The loop of line 112 over the conditions still to visit; the value is
    [memo] as line 128 reads it. *)
Fixpoint scan_conditions (memo : pystr) (l : list pyval) : res pystr :=
  match l with
  | [] => Ok memo
  | condition :: l' =>
    s <~ scan_condition memo condition ;;
    match s with
    | Next => scan_conditions memo l'
    | Break m => Ok m
    end
  end.

(** Lines 108-126: [memo = ""], the puzzle run against its solution, and
    the scan of what it returns. *)
Definition extract_memo (puzzle solution : Program) : M pystr :=
  result <- call (ERun puzzle solution) (run puzzle solution) ;;
  pure (l <~ iter (as_python result) ;; scan_conditions (str "") l).

(** [_, tail_hash, _ = curried_args] *)
Definition unpack_tail_hash (curried_args : list Program) : res Program :=
  match curried_args with
  | [_; tail_hash; _] => Ok tail_hash
  | _ => Raise ValueError
  end.

(** *** [run_generator] (lines 89-130) *)

(** The body of the loop of line 100, for one [npc]; the value is
    [cat_list] after it. *)
Definition run_npc (block_generator : BlockGenerator)
    (constants : ConsensusConstants) (cat_list : list CAT) (npc : NPC)
  : M (list CAT) :=
  '(_, puzzle, solution) <-
     call (EResolve (coin_name npc))
          (get_puzzle_and_solution_for_coin block_generator (coin_name npc)
             (MAX_BLOCK_COST_CLVM constants)) ;;
  '(matched, curried_args) <- call (EMatch puzzle) (match_cat_puzzle puzzle) ;;
  if matched : bool then
    tail_hash <- pure (unpack_tail_hash curried_args) ;;
    memo <- extract_memo puzzle solution ;;
    ret (cat_list ++ [ {| tail_hash := skipn 2 (hex (to_bytes tail_hash));
                          memo := memo;
                          npc := npc |} ])
  else ret cat_list.

Fixpoint run_npcs (block_generator : BlockGenerator)
    (constants : ConsensusConstants) (cat_list : list CAT) (l : list NPC)
  : M (list CAT) :=
  match l with
  | [] => ret cat_list
  | npc :: l' =>
    cat_list' <- run_npc block_generator constants cat_list npc ;;
    run_npcs block_generator constants cat_list' l'
  end.

Definition run_generator (block_generator : BlockGenerator)
    (constants : ConsensusConstants) : M (list CAT) :=
  npc_result <-
    call (EGenerator block_generator)
         (get_name_puzzle_conditions block_generator
            (MAX_BLOCK_COST_CLVM constants) (COST_PER_BYTE constants) false) ;;
  match error npc_result with
  | Some code =>
    raise (if Err_member code then ConsensusError code else ValueError)
  | None => run_npcs block_generator constants [] (npc_list npc_result)
  end.

(** *** The entry points (lines 133-175) *)

(** [SerializedProgram.fromhex(program_str)], [program_str] read from
    JSON: on [None] the first method call on the text fails. *)
Definition fromhex_json (program_str : option pystr) : res SerializedProgram :=
  match program_str with
  | Some s => fromhex s
  | None => Raise AttributeError
  end.

(** The loop of [ref_list_to_args]; [args] is the list built so far. *)
Fixpoint ref_list_to_args_loop (args : list GeneratorArg) (ref_list : list N)
  : M (list GeneratorArg) :=
  match ref_list with
  | [] => ret args
  | height :: ref_list' =>
    f <- call (EOpen height)
              (match open_height height with
               | Some f => Ok f
               | None => Raise FileNotFoundError
               end) ;;
    j <- call (ELoad f) (json_load f) ;;
    arg <- pure (program_str <~ get_transactions_generator j ;;
                 p <~ fromhex_json program_str ;;
                 Ok {| block_height := height; generator := p |}) ;;
    ref_list_to_args_loop (args ++ [arg]) ref_list'
  end.

Definition ref_list_to_args (ref_list : list N) : M (list GeneratorArg) :=
  ref_list_to_args_loop [] ref_list.

Definition run_full_block (block : FullBlock) (constants : ConsensusConstants)
  : M (list CAT) :=
  generator_args <- ref_list_to_args (transactions_generator_ref_list block) ;;
  match transactions_generator block with
  | None => raise (RuntimeError "transactions_generator of FullBlock is null")
  | Some p =>
    run_generator {| program := p; generator_refs := generator_args |} constants
  end.

(** [not generator_program_hex]: [None] and the empty string are false. *)
Definition falsy (generator_program_hex : option pystr) : bool :=
  match generator_program_hex with
  | None | Some [] => true
  | Some (_ :: _) => false
  end.

Definition run_generator_with_args (generator_program_hex : option pystr)
    (generator_args : list GeneratorArg) (constants : ConsensusConstants)
  : M (list CAT) :=
  if falsy generator_program_hex then ret []
  else
    generator_program <- pure (fromhex_json generator_program_hex) ;;
    run_generator {| program := generator_program;
                     generator_refs := generator_args |} constants.

Definition get_config_and_constants : M ConsensusConstants :=
  call EConfig load_constants.

Definition run_json_block_file (file : File) : M unit :=
  constants <- get_config_and_constants ;;
  full_block <- call (ELoad file) (json_load file) ;;
  ref_list <- pure (get_transactions_generator_ref_list full_block) ;;
  args <- ref_list_to_args ref_list ;;
  generator_program_hex <- pure (get_transactions_generator full_block) ;;
  cat_list <- run_generator_with_args generator_program_hex args constants ;;
  dicts <- pure (map_res cat_to_dict cat_list) ;;
  call (EPrint (JList dicts)) (Ok tt).

End RunBlock.

(** ** The vocabulary of the specification *)

Section Vocabulary.

Context {types : Types} {chia : Chia}.

(** The 32-byte all-zero retirement sentinel. *)
Definition zero32 : bytes := repeat x00 32.

(** A qualifying condition, in the words of the specification: a
    CREATE_COIN condition of at least four elements whose fourth element is
    a list that starts with the sentinel.  The value is what follows the
    sentinel in that list. *)
Definition memo_payload (condition : pyval) : option (list pyval) :=
  match condition with
  | PList (PBytes op :: _ :: _ :: PList (PBytes z :: rest) :: _) =>
    if bytes_eqb op CREATE_COIN && bytes_eqb z zero32 then Some rest else None
  | _ => None
  end.

(** The conditions the scan can examine: a sequence with a first element
    and, when it is a CREATE_COIN condition of at least four elements whose
    fourth element is a list, that list starts with a byte string. *)
Definition well_formed (condition : pyval) : bool :=
  match condition with
  | PInt _ => false
  | PBytes b => match b with [] => false | _ :: _ => true end
  | PTuple _ _ => true
  | PList [] => false
  | PList (c0 :: args) =>
    if eq_bytes c0 CREATE_COIN then
      match nth_error args 2 with
      | Some (PList (PBytes _ :: _)) => true
      | Some (PList _) => false
      | _ => true
      end
    else true
  end.

(** A condition the scan passes over. *)
Definition skipped (condition : pyval) : Prop :=
  memo_payload condition = None /\ well_formed condition = true.

(** The memo a payload gives. *)
Definition memo_of_payload (rest : list pyval) : res pystr :=
  match rest with
  | [] => Ok (str "")
  | m :: _ => py_decode m
  end.

Variable block_generator : BlockGenerator.
Variable constants : ConsensusConstants.

(** The one execution of the generator (lines 90-95). *)
Definition execute : res NPCResult :=
  get_name_puzzle_conditions block_generator (MAX_BLOCK_COST_CLVM constants)
    (COST_PER_BYTE constants) false.

(** The puzzle and the solution of a coin. *)
Definition resolve (npc : NPC) : res (N * Program * Program) :=
  get_puzzle_and_solution_for_coin block_generator (coin_name npc)
    (MAX_BLOCK_COST_CLVM constants).

(** The coin's puzzle is a currying of the CAT template. *)
Definition matches (npc : NPC) : bool :=
  match resolve npc with
  | Ok (_, puzzle, _) =>
    match match_cat_puzzle puzzle with
    | Ok (matched, _) => matched
    | Raise _ => false
    end
  | Raise _ => false
  end.

(** Every step taken for the coin succeeds: its puzzle is found and
    tested and, when it is a CAT, it has three curried arguments and a
    memo is extracted. *)
Definition processable (npc : NPC) : Prop :=
  exists k puzzle solution matched curried_args,
    resolve npc = Ok (k, puzzle, solution) /\
    match_cat_puzzle puzzle = Ok (matched, curried_args) /\
    (matched = true ->
     exists tail_hash memo,
       unpack_tail_hash curried_args = Ok tail_hash /\
       outcome (extract_memo puzzle solution) = Ok memo).

(** The record of a coin whose puzzle is a CAT with tail-hash argument
    [tail_hash]. *)
Definition cat_record (tail_hash : Program) (memo : pystr) (npc : NPC) : CAT :=
  {| tail_hash := skipn 2 (hex (to_bytes tail_hash));
     memo := memo;
     npc := npc |}.

(** The records a coin contributes to the output: one when its puzzle is
    a CAT, none otherwise. *)
Definition records (npc : NPC) : list CAT :=
  match resolve npc with
  | Ok (_, puzzle, solution) =>
    match match_cat_puzzle puzzle with
    | Ok (true, [_; tail_hash; _]) =>
      match outcome (extract_memo puzzle solution) with
      | Ok memo => [cat_record tail_hash memo npc]
      | Raise _ => []
      end
    | _ => []
    end
  | Raise _ => []
  end.

(** Modelled from the spec: the invariant of the type NPC, which chia
    declares and whose values the execution engine builds: every
    ConditionWithArgs in a group has an opcode equal to the key of the
    group. *)
Definition grouped (npc : NPC) : Prop :=
  Forall (fun group => Forall (fun cwa => opcode cwa = fst group) (snd group))
         (conditions npc).

(** The names of the coins resolved, in the order of the calls. *)
Definition resolved (t : list event) : list bytes :=
  flat_map (fun ev => match ev with EResolve n => [n] | _ => [] end) t.

(** The trace holds an execution of a generator. *)
Definition executes (t : list event) : bool :=
  existsb (fun ev => match ev with EGenerator _ => true | _ => false end) t.

(** The heights whose file is opened, in the order of the calls. *)
Definition loads (t : list event) : list N :=
  flat_map (fun ev => match ev with EOpen h => [h] | _ => [] end) t.

(** One pass through the loop of [ref_list_to_args] (lines 136-138). *)
Definition load_arg (height : N) : M GeneratorArg :=
  (f <- call (EOpen height)
             (match open_height height with
              | Some f => Ok f
              | None => Raise FileNotFoundError
              end) ;;
   j <- call (ELoad f) (json_load f) ;;
   pure (program_str <~ get_transactions_generator j ;;
         p <~ fromhex_json program_str ;;
         Ok {| block_height := height; generator := p |})%res)%run.

(** The height has a record from which a generator program is read. *)
Definition loadable (height : N) : Prop :=
  exists f j s p,
    open_height height = Some f /\ json_load f = Ok j /\
    get_transactions_generator j = Ok (Some s) /\ fromhex s = Ok p.

End Vocabulary.

(** ** What a trace shows *)

Section Observations.

Context {types : Types}.

(** The documents printed, in the order of the calls. *)
Definition prints (t : list event) : list json :=
  flat_map (fun ev => match ev with EPrint j => [j] | _ => [] end) t.

(** The generators executed, in the order of the calls. *)
Definition executions (t : list event) : list BlockGenerator :=
  flat_map (fun ev => match ev with EGenerator g => [g] | _ => [] end) t.

(** The puzzles run, each with the solution it was run against. *)
Definition puzzle_runs (t : list event) : list (Program * Program) :=
  flat_map (fun ev => match ev with ERun p s => [(p, s)] | _ => [] end) t.

(** The events of [ref_list_to_args]. *)
Definition load_event (ev : event) : bool :=
  match ev with
  | EOpen _ | ELoad _ => true
  | _ => false
  end.

(** The events of the loop over the coins. *)
Definition coin_event (ev : event) : bool :=
  match ev with
  | EResolve _ | EMatch _ | ERun _ _ => true
  | _ => false
  end.

End Observations.

Section Loading.

Context {types : Types} {chia : Chia}.

(** [arg] is what line 138 builds for [height]: the height itself, with
    the program decoded from the generator of the record of that height. *)
Definition loaded (height : N) (arg : GeneratorArg) : Prop :=
  block_height arg = height /\
  exists f j s,
    open_height height = Some f /\ json_load f = Ok j /\
    get_transactions_generator j = Ok (Some s) /\
    fromhex s = Ok (generator arg).

End Loading.

(** ** A small world to run the pipeline in

    The programs of this world are named after the coin they belong to;
    what the collaborators answer about them is read off the coin. *)

Module Toy.

Inductive prog :=
| PuzzleOf (name : bytes)
| SolutionOf (name : bytes)
| OutputOf (name : bytes)
| TailOf (name : bytes)
| InnerOf (name : bytes)
| CatMod.

#[export] Instance types : Types := {|
  Program := prog;
  SerializedProgram := pystr;
  ConditionOpcode := N;
  File := N;
  Json := (option pystr * list N)%type
|}.

(** A coin the generator spends: its name, the conditions the engine
    reports for it, whether its puzzle can be found again, whether the
    puzzle is a CAT, the serialised tail-hash argument, and the value the
    puzzle returns. *)
Record coin := {
  name : bytes;
  reported : list (N * list ConditionWithArgs);
  found : bool;
  is_cat : bool;
  tail : bytes;
  output : pyval
}.

(** What the world holds: the engine's error code, the coins, and the
    heights that have a file, with the generator each file gives. *)
Record world := {
  engine_error : option N;
  coins : list coin;
  heights : list N
}.

Definition spend (c : coin) : NPC :=
  {| coin_name := name c; puzzle_hash := []; conditions := reported c |}.

Definition coin_of (w : world) (n : bytes) : option coin :=
  find (fun c => bytes_eqb (name c) n) (coins w).

Definition lookup (w : world) (n : bytes) : res (N * prog * prog) :=
  match coin_of w n with
  | Some c =>
    if found c then Ok (0%N, PuzzleOf n, SolutionOf n)
    else Raise (LibraryError 1)
  | None => Raise (LibraryError 1)
  end.

Definition matcher (w : world) (p : prog) : res (bool * list prog) :=
  match p with
  | PuzzleOf n =>
    match coin_of w n with
    | Some c =>
      if is_cat c then Ok (true, [CatMod; TailOf n; InnerOf n])
      else Ok (false, [])
    | None => Ok (false, [])
    end
  | _ => Ok (false, [])
  end.

Definition chia (w : world) : Chia := {|
  opcode_eqb := N.eqb;
  opcode_eqb_eq := N.eqb_eq;
  opcode_name := fun o => [o];
  CREATE_COIN := [x33];
  Err_member := fun code => (code <? 200)%N;
  get_name_puzzle_conditions := fun g _ _ _ =>
    Ok {| error := engine_error w;
          npc_list := match engine_error w with
                      | None => map spend (coins w)
                      | Some _ => []
                      end;
          cost := 0 |};
  get_puzzle_and_solution_for_coin := fun _ n _ => lookup w n;
  match_cat_puzzle := matcher w;
  run := fun p _ =>
    match p with
    | PuzzleOf n => Ok (OutputOf n)
    | _ => Raise (LibraryError 2)
    end;
  as_python := fun p =>
    match p with
    | OutputOf n =>
      match coin_of w n with
      | Some c => output c
      | None => PBytes []
      end
    | _ => PBytes []
    end;
  to_bytes := fun p =>
    match p with
    | TailOf n =>
      match coin_of w n with
      | Some c => tail c
      | None => [x80]
      end
    | _ => [x80]
    end;
  fromhex := fun s => Ok s;
  open_height := fun h =>
    if existsb (N.eqb h) (heights w) then Some h else None;
  json_load := fun h =>
    if N.eqb h 0 then Ok (None, [7; 8]%N)
    else if N.eqb h 1 then Ok (None, [7%N])
    else Ok (Some (str "ff01"), []);
  get_transactions_generator := fun j => Ok (fst j);
  get_transactions_generator_ref_list := fun j => Ok (snd j);
  load_constants := Ok {| MAX_BLOCK_COST_CLVM := 11000000000;
                          COST_PER_BYTE := 12000 |}
|}.

Definition constants : ConsensusConstants :=
  {| MAX_BLOCK_COST_CLVM := 11000000000; COST_PER_BYTE := 12000 |}.

Definition the_generator : BlockGenerator :=
  {| program := str "ff01"; generator_refs := [] |}.

Definition zeros32 : bytes := repeat x00 32.

(** [(CREATE_COIN, ph, amount)] *)
Definition plain : pyval :=
  PList [ PBytes [x33]; PBytes [x01]; PBytes [x02] ].

(** [(CREATE_COIN, ph, amount, [0x00..00, payload])] *)
Definition with_memo (payload : bytes) : pyval :=
  PList [ PBytes [x33]; PBytes [x01]; PBytes [x02];
          PList [ PBytes zeros32; PBytes payload ] ].

(** [(CREATE_COIN, ph, amount, [0x00..00])] *)
Definition retired : pyval :=
  PList [ PBytes [x33]; PBytes [x01]; PBytes [x02];
          PList [ PBytes zeros32 ] ].

(** "hello" *)
Definition hello : bytes := [x68; x65; x6c; x6c; x6f].

Definition cat_coin (n : byte) (out : list pyval) : coin :=
  {| name := [n];
     reported := [ (51%N, [ {| opcode := 51%N; vars := [[x01]; [x02]] |} ]);
                   (50%N, [ {| opcode := 50%N; vars := [[x03]] |};
                            {| opcode := 50%N; vars := [[x04]; [x05]] |} ]) ];
     found := true; is_cat := true;
     tail := [xa0; xab; xcd; n]; output := PList out |}.

Definition other_coin (n : byte) : coin :=
  {| name := [n]; reported := []; found := true; is_cat := false;
     tail := []; output := PList [plain] |}.

Definition lost_coin (n : byte) : coin :=
  {| name := [n]; reported := []; found := false; is_cat := false;
     tail := []; output := PList [] |}.

Definition world_of (cs : list coin) : world :=
  {| engine_error := None; coins := cs; heights := [7%N] |}.

(** Four coins: a CAT with a memo, a coin that is not a CAT, a CAT whose
    payload holds the sentinel alone, a CAT that creates nothing. *)
Definition coin1 : coin :=
  cat_coin x01 [plain; with_memo hello; with_memo [xff]].
Definition coin2 : coin := other_coin x02.
Definition coin3 : coin := cat_coin x03 [retired].
Definition coin4 : coin := cat_coin x04 [].

Definition fair : world := world_of [coin1; coin2; coin3; coin4].

(** The engine reports error code 5. *)
Definition failed : world :=
  {| engine_error := Some 5%N; coins := [coin1]; heights := [] |}.

(** The puzzle of the second coin, not a CAT, cannot be found again. *)
Definition lost : world := world_of [coin1; lost_coin x02; coin3].

(** The memo of the second coin is the byte 0xff. *)
Definition garbled_coin : coin := cat_coin x02 [plain; with_memo [xff]].
Definition garbled : world := world_of [coin3; garbled_coin; coin1].

(** What the engine answers in a world where it reports no error. *)
Definition result_of (w : world) : NPCResult :=
  {| error := None; npc_list := map spend (coins w); cost := 0 |}.

(** The record of a CAT coin of these worlds. *)
Definition record_of (w : world) (memo : pystr) (c : coin) : CAT :=
  cat_record (chia := chia w) (TailOf (name c)) memo (spend c).

Definition puzzle_of (c : coin) : res (N * prog * prog) :=
  Ok (0%N, PuzzleOf (name c), SolutionOf (name c)).

Definition args_of (c : coin) : list prog :=
  [CatMod; TailOf (name c); InnerOf (name c)].

(** A block without a generator that refers to height 7, which has a
    file, and one that refers to heights 7 and 8. *)
Definition block7 : FullBlock :=
  {| transactions_generator := None;
     transactions_generator_ref_list := [7%N] |}.
Definition block78 : FullBlock :=
  {| transactions_generator := None;
     transactions_generator_ref_list := [7%N; 8%N] |}.


(** A record whose NPC has an AGG_SIG_ME condition in the CREATE_COIN
    group. *)
Definition mixed_record : CAT :=
  {| tail_hash := str "abcd"; memo := str "";
     npc := {| coin_name := [x07]; puzzle_hash := [];
               conditions :=
                 [ (51%N, [ {| opcode := 51%N; vars := [[x01]; [x02]] |};
                            {| opcode := 50%N; vars := [[x03]] |} ]) ] |} |}.

(** The records of the run in the world [fair]. *)
Definition fair_cats : list CAT :=
  [record_of fair (str "hello") coin1; record_of fair (str "") coin3;
   record_of fair (str "") coin4].

(** A world like [w] whose template matcher finds two curried arguments
    in every puzzle. *)
Definition short_of_arguments (w : world) : Chia := {|
  opcode_eqb := N.eqb;
  opcode_eqb_eq := N.eqb_eq;
  opcode_name := opcode_name (Chia := chia w);
  CREATE_COIN := CREATE_COIN (Chia := chia w);
  Err_member := Err_member (Chia := chia w);
  get_name_puzzle_conditions := get_name_puzzle_conditions (Chia := chia w);
  get_puzzle_and_solution_for_coin :=
    get_puzzle_and_solution_for_coin (Chia := chia w);
  match_cat_puzzle := fun p => Ok (true, [CatMod; p]);
  run := run (Chia := chia w);
  as_python := as_python (Chia := chia w);
  to_bytes := to_bytes (Chia := chia w);
  fromhex := fromhex (Chia := chia w);
  open_height := open_height (Chia := chia w);
  json_load := json_load (Chia := chia w);
  get_transactions_generator := get_transactions_generator (Chia := chia w);
  get_transactions_generator_ref_list :=
    get_transactions_generator_ref_list (Chia := chia w);
  load_constants := load_constants (Chia := chia w)
|}.

(** A CAT whose puzzle returns the empty atom, and one whose puzzle
    returns the atom 0x01. *)
Definition silent_coin : coin :=
  {| name := [x05]; reported := []; found := true; is_cat := true;
     tail := [xa0; x05]; output := PBytes [] |}.
Definition atom_coin : coin :=
  {| name := [x06]; reported := []; found := true; is_cat := true;
     tail := [xa0; x06]; output := PBytes [x01] |}.
Definition atoms : world := world_of [silent_coin; atom_coin].

(** The first coin of [fair] as another engine could report it: the same
    name, another puzzle hash and no condition. *)
Definition coin1_bare : NPC :=
  {| coin_name := [x01]; puzzle_hash := [xff]; conditions := [] |}.

(** A block with a generator that refers to height 7, and the generator
    that is executed for it. *)
Definition block_with_generator : FullBlock :=
  {| transactions_generator := Some (str "ff01");
     transactions_generator_ref_list := [7%N] |}.
Definition generator_with_ref : BlockGenerator :=
  {| program := str "ff01";
     generator_refs := [ {| block_height := 7; generator := str "ff01" |} ] |}.

(** Conditions that carry no memo: an AGG_SIG_ME condition of four
    elements with a list in fourth place, a CREATE_COIN condition of
    three elements, and a CREATE_COIN condition whose fourth element is a
    byte string. *)
Definition memoless : list pyval :=
  [ PList [PBytes [x32]; PBytes [x01]; PBytes [x02]; PList []];
    plain;
    PList [PBytes [x33]; PBytes [x01]; PBytes [x02]; PBytes hello] ].

End Toy.

(** ** A world of CLVM values

    In this world a program is a CLVM value, or Python's [None], which the
    puzzle lookup returns, with its error, for a coin it does not find.
    A puzzle is the pair of a flag, a tail hash and the value that the
    puzzle returns when it is run; [as_python] is the conversion of the
    clvm library. *)

Module Clvm.

#[local] Instance types : Types := {|
  Program := option sexp;
  SerializedProgram := pystr;
  ConditionOpcode := N;
  File := N;
  Json := (option pystr * list N)%type
|}.

(** A coin the generator spends, with its puzzle when the lookup finds
    one. *)
Record coin := {
  name : bytes;
  puzzle : option sexp
}.

Definition cat_puzzle (tail : bytes) (output : sexp) : sexp :=
  Pair (Atom [x01]) (Pair (Atom tail) output).

Definition other_puzzle (output : sexp) : sexp :=
  Pair (Atom []) (Pair (Atom []) output).

Definition spend (c : coin) : NPC :=
  {| coin_name := name c; puzzle_hash := []; conditions := [] |}.

(** The lookup never raises: it returns the puzzle and the solution, or
    its error and [None] twice. *)
Definition lookup (coins : list coin) (n : bytes)
  : res (N * option sexp * option sexp) :=
  match find (fun c => bytes_eqb (name c) n) coins with
  | Some c =>
    match puzzle c with
    | Some p => Ok (0%N, Some p, Some (Atom []))
    | None => Ok (1%N, None, None)
    end
  | None => Ok (1%N, None, None)
  end.

(** The template test starts with a method call on the puzzle, which
    [None] does not have. *)
Definition matcher (p : option sexp) : res (bool * list (option sexp)) :=
  match p with
  | None => Raise AttributeError
  | Some (Pair (Atom [x01]) (Pair t inner)) =>
    Ok (true, [Some (Atom [x01]); Some t; Some inner])
  | Some _ => Ok (false, [])
  end.

Definition chia (coins : list coin) : Chia := {|
  opcode_eqb := N.eqb;
  opcode_eqb_eq := N.eqb_eq;
  opcode_name := fun o => [o];
  CREATE_COIN := [x33];
  Err_member := fun code => (code <? 200)%N;
  get_name_puzzle_conditions := fun g _ _ _ =>
    Ok {| error := None; npc_list := map spend coins; cost := 0 |};
  get_puzzle_and_solution_for_coin := fun _ n _ => lookup coins n;
  match_cat_puzzle := matcher;
  run := fun p _ =>
    match p with
    | Some (Pair _ (Pair _ output)) => Ok (Some output)
    | Some _ => Raise (LibraryError 2)
    | None => Raise AttributeError
    end;
  as_python := fun p =>
    match p with
    | Some x => clvm_as_python x
    | None => PBytes []
    end;
  to_bytes := fun p =>
    match p with
    | Some (Atom b) => xa0 :: b
    | _ => [xff]
    end;
  fromhex := fun s => Ok s;
  open_height := fun h => None;
  json_load := fun h => Ok (None, []);
  get_transactions_generator := fun j => Ok (fst j);
  get_transactions_generator_ref_list := fun j => Ok (snd j);
  load_constants := Ok {| MAX_BLOCK_COST_CLVM := 11000000000;
                          COST_PER_BYTE := 12000 |}
|}.

Definition constants : ConsensusConstants :=
  {| MAX_BLOCK_COST_CLVM := 11000000000; COST_PER_BYTE := 12000 |}.

Definition the_generator : BlockGenerator :=
  {| program := str "ff01"; generator_refs := [] |}.

(** "hello" *)
Definition hello : bytes := [x68; x65; x6c; x6c; x6f].

(** [(51 1 2 ())]: a CREATE_COIN condition whose fourth element is nil. *)
Definition nil_fourth : sexp :=
  slist [Atom [x33]; Atom [x01]; Atom [x02]; Atom []].

(** [(51 1 2 (0x00..00 "hello"))] *)
Definition with_hello : sexp :=
  slist [Atom [x33]; Atom [x01]; Atom [x02];
         slist [Atom zero32; Atom hello]].

(** What the puzzle of the first coin returns: the two conditions. *)
Definition conditions_returned : sexp := slist [nil_fourth; with_hello].

Definition coin1 : coin :=
  {| name := [x01];
     puzzle := Some (cat_puzzle [xab; xcd] conditions_returned) |}.

(** A coin whose puzzle the lookup does not find. *)
Definition coin2 : coin := {| name := [x02]; puzzle := None |}.

Definition coin3 : coin :=
  {| name := [x03]; puzzle := Some (other_puzzle (Atom [])) |}.

Definition puzzle1 : Program :=
  Some (cat_puzzle [xab; xcd] conditions_returned).

(** Its curried arguments and the value it returns. *)
Definition tail1 : Program := Some (Atom [xab; xcd]).
Definition args1 : list Program :=
  [Some (Atom [x01]); tail1; Some conditions_returned].
Definition returned1 : Program := Some conditions_returned.

Definition record1 : CAT :=
  {| tail_hash := str "abcd"; memo := str "hello"; npc := spend coin1 |}.

(** Python's [None] as a program, and the solution of every coin. *)
Definition none : Program := None.
Definition solution : Program := Some (Atom []).

(** What the engine answers for the coins. *)
Definition result_of (coins : list coin) : NPCResult :=
  {| error := None; npc_list := map spend coins; cost := 0 |}.

(** The first condition as the loop sees it: the fourth element is the
    empty byte string. *)
Definition nil_fourth_seen : pyval :=
  PList [ PBytes [x33]; PBytes [x01]; PBytes [x02]; PBytes [] ].

(** The second condition as the loop sees it. *)
Definition with_hello_seen : pyval :=
  PList [ PBytes [x33]; PBytes [x01]; PBytes [x02];
          PList [ PBytes zero32; PBytes hello ] ].

End Clvm.


(** * Properties *)

(** ** Strings and bytes *)

Lemma str_eqb_eq (s t : pystr) : str_eqb s t = true <-> s = t.
Proof.
  revert t; induction s as [|a s IH]; intros [|b t]; simpl;
    try (split; [discriminate | congruence]); try tauto.
  rewrite andb_true_iff, N.eqb_eq, IH.
  split; [intros [-> ->]; reflexivity | intros H; inversion H; auto].
Qed.

Lemma to_N_inj (a b : byte) : Byte.to_N a = Byte.to_N b -> a = b.
Proof.
  intros H.
  assert (E : Some a = Some b)
    by (rewrite <- (Byte.of_to_N a), <- (Byte.of_to_N b), H; reflexivity).
  congruence.
Qed.

Lemma bytes_eqb_eq (a b : bytes) : bytes_eqb a b = true <-> a = b.
Proof.
  unfold bytes_eqb; rewrite str_eqb_eq; split; [|congruence].
  revert b; induction a as [|x a IH]; intros [|y b]; simpl; try congruence.
  intros H; inversion H; f_equal; auto using to_N_inj.
Qed.

Lemma bytes_eqb_refl (a : bytes) : bytes_eqb a a = true.
Proof. apply bytes_eqb_eq; reflexivity. Qed.

Lemma hex_cons (x : byte) (b : bytes) : hex (x :: b) = hex_byte x ++ hex b.
Proof. reflexivity. Qed.

Lemma hex_length (b : bytes) : List.length (hex b) = 2 * List.length b.
Proof.
  induction b as [|x b IH]; [reflexivity|].
  rewrite hex_cons, length_app, IH; simpl; lia.
Qed.

(** Dropping two characters of the encoding drops the first byte. *)
Lemma hex_skip2 (x : byte) (b : bytes) : skipn 2 (hex (x :: b)) = hex b.
Proof. reflexivity. Qed.

Lemma hex_digit_lower (n : N) :
  (n < 16)%N -> In (hex_digit n) (str "0123456789abcdef").
Proof.
  intros H.
  assert (E : forallb (fun k => existsb (N.eqb (hex_digit (N.of_nat k)))
                                        (str "0123456789abcdef"))
                      (seq 0 16) = true) by reflexivity.
  rewrite forallb_forall in E; specialize (E (N.to_nat n)).
  rewrite N2Nat.id in E.
  destruct (proj1 (existsb_exists _ _) (E ltac:(apply in_seq; lia)))
    as (d & Hin & Hd).
  apply N.eqb_eq in Hd; rewrite Hd; exact Hin.
Qed.

(** The encoding uses the digits and the lowercase letters a to f only. *)
Lemma hex_lower (b : bytes) :
  Forall (fun c => In c (str "0123456789abcdef")) (hex b).
Proof.
  induction b as [|x b IH]; [constructor|].
  rewrite hex_cons; apply Forall_app; split; [|exact IH].
  unfold hex_byte.
  apply Forall_cons; [|apply Forall_cons; [|apply Forall_nil]];
    apply hex_digit_lower.
  - apply N.Div0.div_lt_upper_bound.
    pose proof (Byte.to_N_bounded x); lia.
  - apply N.mod_lt; discriminate.
Qed.

Lemma hex_byte_zero (x : byte) : hex_byte x = [48; 48]%N -> x = x00.
Proof. destruct x; vm_compute; intros H; try discriminate H; reflexivity. Qed.

Lemma hex_zeros (n : nat) (b : bytes) :
  hex b = repeat 48%N (2 * n) -> b = repeat x00 n.
Proof.
  revert n; induction b as [|x b IH]; intros [|n] H;
    try reflexivity; try discriminate H.
  replace (2 * S n) with (S (S (2 * n))) in H by lia.
  rewrite hex_cons in H; simpl in H.
  injection H as H1 H2 H3.
  simpl; f_equal; [|apply IH; exact H3].
  apply hex_byte_zero; unfold hex_byte; congruence.
Qed.

(** Line 120 compares with the encoding of the sentinel. *)
Lemma retirement_test (z : bytes) :
  str_eqb (hex z) retirement_hex = bytes_eqb z zero32.
Proof.
  destruct (bytes_eqb z zero32) eqn:E.
  - apply bytes_eqb_eq in E; subst; reflexivity.
  - destruct (str_eqb (hex z) retirement_hex) eqn:F; [|reflexivity].
    apply str_eqb_eq in F.
    rewrite (hex_zeros 32 z F), bytes_eqb_refl in E; discriminate.
Qed.

(** ** The memo scan *)

Section Scan.

Context {types : Types} {chia : Chia}.

(** Case analysis along the tests of the loop body. *)
Ltac cases :=
  repeat (simpl in *; rewrite ?retirement_test in *; try easy;
          try congruence;
          match goal with
          | H : Some _ = Some _ |- _ => inversion H; clear H
          | H : Ok _ = Ok _ |- _ => inversion H; clear H
          | H : _ && _ = true |- _ => apply andb_true_iff in H; destruct H
          | H : _ && _ = false |- _ => apply andb_false_iff in H; destruct H
          | H : context [match ?d with _ => _ end] |- _ => destruct d eqn:?
          | H : context [if ?d then _ else _] |- _ => destruct d eqn:?
          | |- context [if ?d then _ else _] => destruct d eqn:?
          | |- context [match ?d with _ => _ end] => destruct d eqn:?
          end; subst).

(** On a qualifying condition the loop stops, with the decoded second
    element of the payload when there is one. *)
Lemma scan_condition_break (memo : pystr) (c : pyval) (rest : list pyval) :
  memo_payload c = Some rest ->
  scan_condition memo c =
  match rest with
  | [] => Ok (Break memo)
  | m :: _ => rbind (py_decode m) (fun s => Ok (Break s))
  end.
Proof.
  unfold scan_condition, memo_payload, getitem, len, eq_bytes, is_list, py_hex.
  intros H; cases.
Qed.

(** A well-formed condition that does not qualify is passed over. *)
Lemma scan_condition_next (memo : pystr) (c : pyval) :
  skipped c -> scan_condition memo c = Ok Next.
Proof.
  unfold skipped, scan_condition, memo_payload, well_formed,
    getitem, len, eq_bytes, is_list, py_hex.
  intros [H W]; cases.
Qed.

(** Conversely, the loop goes on only past such a condition. *)
Lemma scan_condition_next_inv (memo : pystr) (c : pyval) :
  scan_condition memo c = Ok Next -> skipped c.
Proof.
  unfold skipped, scan_condition, memo_payload, well_formed,
    getitem, len, eq_bytes, is_list, py_hex.
  intros H; unfold rbind in H; split; cases.
Qed.

(** A list of skipped conditions leaves [memo] as it was. *)
Lemma scan_conditions_skipped (memo : pystr) (l : list pyval) :
  Forall skipped l -> scan_conditions memo l = Ok memo.
Proof.
  induction 1 as [|c l Hc _ IH]; simpl; [reflexivity|].
  rewrite (scan_condition_next memo Hc); exact IH.
Qed.

(** The scan ends at the first condition that is not skipped, whatever
    follows it. *)
Lemma scan_conditions_stop (memo : pystr) (pre post : list pyval) (c : pyval) :
  Forall skipped pre ->
  scan_conditions memo (pre ++ c :: post) =
  match scan_condition memo c with
  | Ok Next => scan_conditions memo post
  | Ok (Break m) => Ok m
  | Raise e => Raise e
  end.
Proof.
  induction 1 as [|c' l Hc _ IH]; simpl.
  - destruct (scan_condition memo c) as [[|m]|e]; reflexivity.
  - rewrite (scan_condition_next memo Hc); exact IH.
Qed.

Lemma scan_conditions_first (memo : pystr) (pre post rest : list pyval)
    (c : pyval) :
  Forall skipped pre -> memo_payload c = Some rest ->
  scan_conditions memo (pre ++ c :: post) =
  match rest with
  | [] => Ok memo
  | m :: _ => py_decode m
  end.
Proof.
  intros Hpre Hc.
  rewrite (scan_conditions_stop memo post c Hpre),
    (scan_condition_break memo c Hc).
  destruct rest as [|m rest]; [reflexivity|].
  destruct (py_decode m); reflexivity.
Qed.

(** The conversion of a CLVM value yields no empty list. *)
Lemma clvm_as_python_proper (x : sexp) : proper (clvm_as_python x) = true.
Proof.
  induction x as [b|first IH1 rest IH2]; [reflexivity|].
  cbn [clvm_as_python].
  destruct (clvm_as_python rest) as [z|[|y b]|v|u w]; cbn [proper forallb].
  - rewrite IH1; reflexivity.
  - rewrite IH1; reflexivity.
  - rewrite IH1; reflexivity.
  - rewrite IH1; destruct v; [discriminate IH2|exact IH2].
  - rewrite IH1; exact IH2.
Qed.

(** Nor does the list of what the loop visits. *)
Lemma fourth_not_empty (v : pyval) (pre post more : list pyval)
    (c0 ph amount fourth : pyval) :
  proper v = true ->
  iter v = Ok (pre ++ PList (c0 :: ph :: amount :: fourth :: more) :: post) ->
  fourth <> PList [].
Proof.
  intros P H E; subst fourth.
  assert (A : forallb proper
                (pre ++ PList (c0 :: ph :: amount :: PList [] :: more) :: post)
              = true).
  { destruct v as [z|b|l|u w]; simpl in H; try discriminate H;
      injection H as H.
    - rewrite <- H, forallb_forall; intros y Hy.
      apply in_map_iff in Hy; destruct Hy as (? & <- & _); reflexivity.
    - rewrite <- H; destruct l; [discriminate P|exact P].
    - rewrite <- H; simpl in P; apply andb_true_iff in P.
      destruct P as [Pu Pw]; simpl; rewrite Pu, Pw; reflexivity. }
  rewrite forallb_app in A; apply andb_true_iff in A; destruct A as [_ A].
  cbn [forallb proper] in A.
  rewrite !andb_false_r in A; discriminate A.
Qed.

(** On a CREATE_COIN condition of at least four elements the only index
    that can be out of range is the first one of an empty fourth
    element. *)
Lemma scan_condition_no_index_error (memo : pystr)
    (ph amount fourth : pyval) (more : list pyval) :
  fourth <> PList [] ->
  scan_condition memo
    (PList (PBytes CREATE_COIN :: ph :: amount :: fourth :: more))
  <> Raise IndexError.
Proof.
  intros N; unfold scan_condition; simpl; rewrite bytes_eqb_refl; simpl.
  destruct fourth as [z|b|[|y l]|u w]; simpl; try discriminate;
    [contradiction N; reflexivity|].
  destruct y as [z|b|l'|u w]; simpl; try discriminate.
  destruct (str_eqb (hex b) retirement_hex); [|discriminate].
  destruct l as [|m l]; simpl; [discriminate|].
  destruct m as [z|b'|l'|u w]; simpl; try discriminate.
  unfold decode; destruct (utf8_decode _); discriminate.
Qed.

End Scan.

(** ** Computations *)

Section Computations.

Context {types : Types}.

Lemma bind_unfold {A B} (m : M A) (k : A -> M B) :
  bind m k =
  match outcome m with
  | Ok a => (trace m ++ trace (k a), outcome (k a))
  | Raise e => (trace m, Raise e)
  end.
Proof.
  destruct m as [t [a|e]]; simpl; [|reflexivity].
  destruct (k a); reflexivity.
Qed.

Lemma pair_eta {A} (m : M A) : m = (trace m, outcome m).
Proof. destruct m; reflexivity. Qed.

Lemma resolved_app (t u : list event) :
  resolved (t ++ u) = resolved t ++ resolved u.
Proof. apply flat_map_app. Qed.

End Computations.

(** ** The loop over the coins *)

Section Coins.

Context {types : Types} {chia : Chia}.

Variable g : BlockGenerator.
Variable c : ConsensusConstants.

Lemma extract_memo_trace (puzzle solution : Program) :
  trace (extract_memo puzzle solution) = [ERun puzzle solution].
Proof.
  unfold extract_memo, call, pure; rewrite bind_unfold; simpl.
  destruct (run puzzle solution); reflexivity.
Qed.

Lemma extract_memo_outcome (puzzle solution : Program) :
  outcome (extract_memo puzzle solution) =
  rbind (run puzzle solution)
        (fun result => rbind (iter (as_python result))
                             (scan_conditions (str ""))).
Proof.
  unfold extract_memo, call, pure; rewrite bind_unfold; simpl.
  destruct (run puzzle solution); reflexivity.
Qed.

(** The body of the loop, by cases on what the collaborators answer. *)
Lemma run_npc_unfold (cat_list : list CAT) (npc : NPC) :
  run_npc g c cat_list npc =
  match resolve g c npc with
  | Raise e => ([EResolve (coin_name npc)], Raise e)
  | Ok (_, puzzle, solution) =>
    match match_cat_puzzle puzzle with
    | Raise e => ([EResolve (coin_name npc); EMatch puzzle], Raise e)
    | Ok (false, _) => ([EResolve (coin_name npc); EMatch puzzle], Ok cat_list)
    | Ok (true, curried_args) =>
      match unpack_tail_hash curried_args with
      | Raise e => ([EResolve (coin_name npc); EMatch puzzle], Raise e)
      | Ok tail_hash =>
        ([EResolve (coin_name npc); EMatch puzzle; ERun puzzle solution],
         match outcome (extract_memo puzzle solution) with
         | Ok memo => Ok (cat_list ++ [cat_record tail_hash memo npc])
         | Raise e => Raise e
         end)
      end
    end
  end.
Proof.
  unfold run_npc, resolve, call, pure, ret.
  destruct (get_puzzle_and_solution_for_coin _ _ _) as [[[k p] s]|e];
    simpl; [|reflexivity].
  destruct (match_cat_puzzle p) as [[[|] args]|e]; simpl; try reflexivity.
  destruct (unpack_tail_hash args) as [t|e]; simpl; [|reflexivity].
  rewrite (pair_eta (extract_memo p s)), extract_memo_trace.
  destruct (outcome (extract_memo p s)); reflexivity.
Qed.

(** A processable coin adds its records to the list and nothing else. *)
Lemma run_npc_processable (cat_list : list CAT) (npc : NPC) :
  processable g c npc ->
  outcome (run_npc g c cat_list npc) = Ok (cat_list ++ records g c npc).
Proof.
  intros (k & p & s & m & args & Hr & Hm & Hc).
  rewrite run_npc_unfold; unfold records; rewrite Hr, Hm.
  destruct m; simpl; [|rewrite app_nil_r; reflexivity].
  destruct (Hc eq_refl) as (t & memo & Ht & He).
  rewrite Ht; simpl; rewrite He.
  unfold unpack_tail_hash in Ht.
  destruct args as [|? [|? [|? [|? ?]]]]; try discriminate Ht.
  injection Ht as ->; reflexivity.
Qed.

(** Only a processable coin lets the loop go on. *)
Lemma run_npc_ok_inv (cat_list cat_list' : list CAT) (npc : NPC) :
  outcome (run_npc g c cat_list npc) = Ok cat_list' -> processable g c npc.
Proof.
  rewrite run_npc_unfold; unfold processable.
  destruct (resolve g c npc) as [[[k p] s]|e] eqn:Hr; [|discriminate].
  destruct (match_cat_puzzle p) as [[[|] args]|e] eqn:Hm; [| |discriminate].
  - destruct (unpack_tail_hash args) as [t|e] eqn:Ht; [|discriminate].
    simpl.
    destruct (outcome (extract_memo p s)) as [memo|e] eqn:He; [|discriminate].
    intros _; exists k, p, s, true, args; repeat split; auto.
    intros _; exists t, memo; auto.
  - intros _; exists k, p, s, false, args; repeat split; auto.
    discriminate.
Qed.

(** Whether a coin makes the loop fail does not depend on the list built
    so far. *)
Lemma run_npc_raise (l1 l2 : list CAT) (npc : NPC) (e : exn) :
  outcome (run_npc g c l1 npc) = Raise e ->
  outcome (run_npc g c l2 npc) = Raise e.
Proof.
  rewrite !run_npc_unfold.
  destruct (resolve g c npc) as [[[k p] s]|?]; [|exact id].
  destruct (match_cat_puzzle p) as [[[|] args]|?]; try exact id;
    [|discriminate].
  destruct (unpack_tail_hash args); [|exact id]; simpl.
  destruct (outcome (extract_memo p s)); [discriminate|exact id].
Qed.

(** The records of a coin carry the coin, and exist exactly when its
    puzzle matches. *)
Lemma records_npc (n : NPC) :
  processable g c n ->
  map npc (records g c n) = if matches g c n then [n] else [].
Proof.
  intros (k & p & s & m & args & Hr & Hm & Hc).
  unfold records, matches; rewrite Hr, Hm.
  destruct m; [|reflexivity].
  destruct (Hc eq_refl) as (t & memo & Ht & He).
  unfold unpack_tail_hash in Ht.
  destruct args as [|? [|? [|? [|? ?]]]]; try discriminate Ht.
  rewrite He; reflexivity.
Qed.

(** The loop over a list of processable coins. *)
Lemma run_npcs_processable (cat_list : list CAT) (l : list NPC) :
  Forall (processable g c) l ->
  outcome (run_npcs g c cat_list l) =
  Ok (cat_list ++ flat_map (records g c) l).
Proof.
  intros H; revert cat_list.
  induction H as [|n l Hn _ IH]; intros cat_list; simpl.
  - rewrite app_nil_r; reflexivity.
  - rewrite bind_unfold, (run_npc_processable cat_list Hn); simpl.
    rewrite IH, app_assoc; reflexivity.
Qed.

Lemma run_npcs_ok_inv (cat_list cat_list' : list CAT) (l : list NPC) :
  outcome (run_npcs g c cat_list l) = Ok cat_list' ->
  Forall (processable g c) l.
Proof.
  revert cat_list; induction l as [|n l IH]; intros cat_list; simpl;
    [constructor|].
  rewrite bind_unfold.
  destruct (outcome (run_npc g c cat_list n)) as [cl|e] eqn:E;
    [|discriminate].
  simpl; intros H; constructor; eauto using run_npc_ok_inv.
Qed.

(** The loop fails at the first coin that fails. *)
Lemma run_npcs_raise (cat_list l0 : list CAT) (pre post : list NPC) (n : NPC)
    (e : exn) :
  Forall (processable g c) pre ->
  outcome (run_npc g c l0 n) = Raise e ->
  outcome (run_npcs g c cat_list (pre ++ n :: post)) = Raise e.
Proof.
  intros H Hn; revert cat_list.
  induction H as [|n' l Hn' _ IH]; intros cat_list; simpl.
  - rewrite bind_unfold, (@run_npc_raise l0 cat_list n e Hn); reflexivity.
  - rewrite bind_unfold, (run_npc_processable cat_list Hn'); simpl.
    apply IH.
Qed.

(** A coin that fails anywhere in the list makes the loop fail. *)
Lemma run_npcs_raise_in (cat_list l0 : list CAT) (l : list NPC) (n : NPC)
    (e : exn) :
  In n l ->
  outcome (run_npc g c l0 n) = Raise e ->
  exists e', outcome (run_npcs g c cat_list l) = Raise e'.
Proof.
  intros Hin Hn.
  destruct (outcome (run_npcs g c cat_list l)) as [cl|e'] eqn:E; [|eauto].
  apply run_npcs_ok_inv in E.
  rewrite Forall_forall in E.
  rewrite (run_npc_processable l0 (E n Hin)) in Hn; discriminate.
Qed.

(** The puzzle of every coin is looked up, in the order of the list, up to
    the coin where the loop ends. *)
Lemma run_npcs_resolved (cat_list cat_list' : list CAT) (l : list NPC) :
  outcome (run_npcs g c cat_list l) = Ok cat_list' ->
  resolved (trace (run_npcs g c cat_list l)) = map coin_name l.
Proof.
  revert cat_list; induction l as [|n l IH]; intros cat_list; simpl;
    [reflexivity|].
  rewrite bind_unfold.
  destruct (outcome (run_npc g c cat_list n)) as [cl|e] eqn:E;
    [|discriminate].
  simpl; intros H; rewrite resolved_app, (IH _ H); f_equal.
  revert E; rewrite run_npc_unfold.
  destruct (resolve g c n) as [[[k p] s]|?]; [|discriminate].
  destruct (match_cat_puzzle p) as [[[|] args]|?]; try discriminate;
    [|reflexivity].
  destruct (unpack_tail_hash args); [reflexivity|discriminate].
Qed.

(** A puzzle is run only for a coin of the list whose puzzle matches. *)
Lemma run_npcs_runs (cat_list : list CAT) (l : list NPC)
    (puzzle solution : Program) :
  In (ERun puzzle solution) (trace (run_npcs g c cat_list l)) ->
  exists n k curried_args,
    In n l /\ resolve g c n = Ok (k, puzzle, solution) /\
    match_cat_puzzle puzzle = Ok (true, curried_args).
Proof.
  revert cat_list; induction l as [|n l IH]; intros cat_list; simpl;
    [intros []|].
  rewrite bind_unfold.
  assert (Hn : In (ERun puzzle solution) (trace (run_npc g c cat_list n)) ->
               exists k curried_args,
                 resolve g c n = Ok (k, puzzle, solution) /\
                 match_cat_puzzle puzzle = Ok (true, curried_args)).
  { rewrite run_npc_unfold.
    destruct (resolve g c n) as [[[k p] s]|?] eqn:Hr;
      [|simpl; intuition discriminate].
    destruct (match_cat_puzzle p) as [[[|] args]|?] eqn:Hm;
      try (simpl; intuition discriminate).
    destruct (unpack_tail_hash args); simpl; try intuition discriminate.
    intros [H|[H|[H|[]]]]; try discriminate H.
    injection H as -> ->; eauto. }
  destruct (outcome (run_npc g c cat_list n)) as [cl|e]; simpl.
  - rewrite in_app_iff; intros [H|H].
    + destruct (Hn H) as (k & args & ? & ?); exists n, k, args; auto.
    + destruct (IH _ H) as (n' & k & args & ? & ? & ?).
      exists n', k, args; auto.
  - intros H; destruct (Hn H) as (k & args & ? & ?); exists n, k, args; auto.
Qed.

Lemma map_npc_records (l : list NPC) :
  Forall (processable g c) l ->
  map npc (flat_map (records g c) l) = filter (matches g c) l.
Proof.
  induction 1 as [|n l Hn _ IH]; simpl; [reflexivity|].
  rewrite map_app, IH, (records_npc Hn).
  destruct (matches g c n); reflexivity.
Qed.

End Coins.

(** ** [run_generator] *)

Section Generator.

Context {types : Types} {chia : Chia}.

Variable g : BlockGenerator.
Variable c : ConsensusConstants.

(** After a successful execution the run is the loop over the coins. *)
Lemma run_generator_unfold (r : NPCResult) :
  execute g c = Ok r -> error r = None ->
  run_generator g c =
  (EGenerator g :: trace (run_npcs g c [] (npc_list r)),
   outcome (run_npcs g c [] (npc_list r))).
Proof.
  unfold execute, run_generator, call; intros -> H.
  rewrite bind_unfold; simpl; rewrite H; reflexivity.
Qed.

Lemma run_generator_error (r : NPCResult) (code : N) :
  execute g c = Ok r -> error r = Some code ->
  run_generator g c =
  ([EGenerator g],
   Raise (if Err_member code then ConsensusError code else ValueError)).
Proof.
  unfold execute, run_generator, call; intros -> H.
  rewrite bind_unfold; simpl; rewrite H; reflexivity.
Qed.

(** A run that returns a list went through every coin. *)
Lemma run_generator_ok_inv (r : NPCResult) (cats : list CAT) :
  execute g c = Ok r -> outcome (run_generator g c) = Ok cats ->
  error r = None /\ Forall (processable g c) (npc_list r) /\
  cats = flat_map (records g c) (npc_list r).
Proof.
  intros He H.
  destruct (error r) as [code|] eqn:E.
  - rewrite (run_generator_error He E) in H; discriminate.
  - rewrite (run_generator_unfold He E) in H; simpl in H.
    pose proof H as P; apply run_npcs_ok_inv in P.
    rewrite (run_npcs_processable [] P) in H.
    injection H as <-; auto.
Qed.

(** *** What [run_generator] guarantees *)

(** C3: when the execution result carries an error code, [run_generator]
    raises straight after the execution: the trace holds the execution and
    nothing else, so no coin is looked at, and no list is returned.  The
    exception is the consensus error of that code, for a code that is a
    member of [Err]. *)
Theorem C3_execution_error_aborts (r : NPCResult) (code : N) :
  execute g c = Ok r -> error r = Some code ->
  trace (run_generator g c) = [EGenerator g] /\
  (forall cats, outcome (run_generator g c) <> Ok cats) /\
  (Err_member code = true ->
   outcome (run_generator g c) = Raise (ConsensusError code)).
Proof.
  intros He E; rewrite (run_generator_error He E); simpl.
  repeat split; [discriminate|].
  intros ->; reflexivity.
Qed.

(** C5: after a successful execution the run, when every coin is
    processable, returns a list whose coins are the coins of the execution
    result that match the CAT template, in the order of the result; a list
    returned is always that one; and a puzzle is run only if it belongs to
    a coin of the result and matches. *)
Theorem C5_one_record_per_matching_coin (r : NPCResult) :
  execute g c = Ok r -> error r = None ->
  (Forall (processable g c) (npc_list r) ->
   exists cats, outcome (run_generator g c) = Ok cats /\
                map npc cats = filter (matches g c) (npc_list r)) /\
  (forall cats, outcome (run_generator g c) = Ok cats ->
                map npc cats = filter (matches g c) (npc_list r)) /\
  (forall puzzle solution,
     In (ERun puzzle solution) (trace (run_generator g c)) ->
     exists n k curried_args,
       In n (npc_list r) /\ resolve g c n = Ok (k, puzzle, solution) /\
       match_cat_puzzle puzzle = Ok (true, curried_args)).
Proof.
  intros He E; split; [|split].
  - intros P; exists (flat_map (records g c) (npc_list r)).
    rewrite (run_generator_unfold He E); simpl.
    rewrite (run_npcs_processable [] P); split; [reflexivity|].
    apply map_npc_records, P.
  - intros cats H.
    destruct (run_generator_ok_inv He H) as (_ & P & ->).
    apply map_npc_records, P.
  - intros p s; rewrite (run_generator_unfold He E); simpl.
    intros [H|H]; [discriminate H|].
    eapply run_npcs_runs; exact H.
Qed.

(** C8: after a successful execution, a run that returns a list has
    looked up the puzzle of every coin of the result, in order, matching or
    not.  The lookup reports a failure by returning its error with [None]
    in place of the puzzle and of the solution; [none] stands for that
    value, on which the template test raises.  A coin whose lookup fails
    so makes the run fail, whether its puzzle would have matched or not,
    and with the exception of the template test when the coins before it
    are processable.  A lookup that raises makes the run fail as well. *)
Theorem C8_every_coin_is_resolved (r : NPCResult) (none : Program) (e : exn) :
  execute g c = Ok r -> error r = None ->
  match_cat_puzzle none = Raise e ->
  (forall cats, outcome (run_generator g c) = Ok cats ->
     resolved (trace (run_generator g c)) = map coin_name (npc_list r)) /\
  (forall n k, In n (npc_list r) -> resolve g c n = Ok (k, none, none) ->
     exists e', outcome (run_generator g c) = Raise e') /\
  (forall pre n post k,
     npc_list r = pre ++ n :: post -> Forall (processable g c) pre ->
     resolve g c n = Ok (k, none, none) ->
     outcome (run_generator g c) = Raise e) /\
  (forall n e0, In n (npc_list r) -> resolve g c n = Raise e0 ->
     exists e', outcome (run_generator g c) = Raise e').
Proof.
  intros He E Hnone; rewrite (run_generator_unfold He E); simpl.
  assert (F : forall n k, resolve g c n = Ok (k, none, none) ->
                          outcome (run_npc g c [] n) = Raise e)
    by (intros n k H; rewrite run_npc_unfold, H, Hnone; reflexivity).
  assert (F' : forall n e0, resolve g c n = Raise e0 ->
                            outcome (run_npc g c [] n) = Raise e0)
    by (intros n e0 H; rewrite run_npc_unfold, H; reflexivity).
  split; [|split; [|split]].
  - intros cats H; eapply run_npcs_resolved; exact H.
  - intros n k Hin H; eapply run_npcs_raise_in; [exact Hin|exact (F _ _ H)].
  - intros pre n post k -> P H.
    eapply run_npcs_raise; [exact P|exact (F _ _ H)].
  - intros n e0 Hin H; eapply run_npcs_raise_in; [exact Hin|exact (F' _ _ H)].
Qed.

(** What a matched coin does once its puzzle has been run. *)
Lemma run_npc_matched (cat_list : list CAT) (n : NPC) (k : N)
    (puzzle solution tail_hash result : Program)
    (curried_args : list Program) (l : list pyval) :
  resolve g c n = Ok (k, puzzle, solution) ->
  match_cat_puzzle puzzle = Ok (true, curried_args) ->
  unpack_tail_hash curried_args = Ok tail_hash ->
  run puzzle solution = Ok result ->
  iter (as_python result) = Ok l ->
  run_npc g c cat_list n =
  ([EResolve (coin_name n); EMatch puzzle; ERun puzzle solution],
   match scan_conditions (str "") l with
   | Ok memo => Ok (cat_list ++ [cat_record tail_hash memo n])
   | Raise e => Raise e
   end).
Proof.
  intros Hr Hm Ht Hp Hl.
  rewrite run_npc_unfold, Hr, Hm, Ht, extract_memo_outcome, Hp; simpl.
  rewrite Hl; reflexivity.
Qed.

(** C1: for a coin whose puzzle matches, the puzzle is run against its
    solution, once, and the conditions it returns are scanned in order.
    When the conditions before a qualifying one are well formed and do not
    qualify, the memo of the record is the UTF-8 decoding of the second
    element of that condition's payload list, or the empty string when the
    list has no second element, whatever conditions follow; when no
    condition qualifies the memo is the empty string. *)
Theorem C1_memo_of_first_qualifying_condition (cat_list : list CAT) (n : NPC)
    (k : N) (puzzle solution tail_hash result : Program)
    (curried_args : list Program) (l : list pyval) :
  resolve g c n = Ok (k, puzzle, solution) ->
  match_cat_puzzle puzzle = Ok (true, curried_args) ->
  unpack_tail_hash curried_args = Ok tail_hash ->
  run puzzle solution = Ok result ->
  iter (as_python result) = Ok l ->
  trace (run_npc g c cat_list n) =
    [EResolve (coin_name n); EMatch puzzle; ERun puzzle solution] /\
  (forall pre condition post rest memo,
     l = pre ++ condition :: post -> Forall skipped pre ->
     memo_payload condition = Some rest -> memo_of_payload rest = Ok memo ->
     outcome (run_npc g c cat_list n) =
     Ok (cat_list ++ [cat_record tail_hash memo n])) /\
  (Forall skipped l ->
   outcome (run_npc g c cat_list n) =
   Ok (cat_list ++ [cat_record tail_hash (str "") n])).
Proof.
  intros Hr Hm Ht Hp Hl.
  rewrite (run_npc_matched cat_list n Hr Hm Ht Hp Hl); simpl.
  split; [reflexivity|split].
  - intros pre cond post rest memo -> Hpre Hc Hmemo.
    rewrite (scan_conditions_first (str "") post cond Hpre Hc).
    unfold memo_of_payload in Hmemo.
    destruct rest as [|m rest].
    + injection Hmemo as <-; reflexivity.
    + rewrite Hmemo; reflexivity.
  - intros Hl'; rewrite (scan_conditions_skipped (str "") Hl'); reflexivity.
Qed.

(** C10: a CREATE_COIN condition of at least four elements whose fourth
    element is empty does not make the scan fail.  The conversion of the
    value that the puzzle returns renders nil as the empty byte string and
    never yields an empty list, so the fourth element is not the empty
    list and the loop body does not fail with an index error on the
    condition; with nil in fourth place the condition is passed over like
    any condition whose fourth element is a byte string, and the memo is
    what the conditions after it give. *)
Theorem C10_empty_fourth_element_is_passed_over (cat_list : list CAT)
    (n : NPC) (k : N) (puzzle solution tail_hash result : Program)
    (curried_args : list Program) (x : sexp) (pre post more : list pyval)
    (ph amount fourth : pyval) :
  let condition :=
    PList (PBytes CREATE_COIN :: ph :: amount :: fourth :: more) in
  resolve g c n = Ok (k, puzzle, solution) ->
  match_cat_puzzle puzzle = Ok (true, curried_args) ->
  unpack_tail_hash curried_args = Ok tail_hash ->
  run puzzle solution = Ok result ->
  as_python result = clvm_as_python x ->
  iter (clvm_as_python x) = Ok (pre ++ condition :: post) ->
  Forall skipped pre ->
  fourth <> PList [] /\
  (forall memo, scan_condition memo condition <> Raise IndexError) /\
  (fourth = PBytes [] ->
   (forall memo, scan_condition memo condition = Ok Next) /\
   outcome (extract_memo puzzle solution) = scan_conditions (str "") post /\
   outcome (run_npc g c cat_list n) =
   match scan_conditions (str "") post with
   | Ok memo => Ok (cat_list ++ [cat_record tail_hash memo n])
   | Raise e => Raise e
   end).
Proof.
  intros condition Hr Hm Ht Hp Ha Hi Hpre.
  assert (N : fourth <> PList [])
    by (exact (fourth_not_empty _ _ _ _ _ _ _ (clvm_as_python_proper x) Hi)).
  split; [exact N|split].
  - intros memo; apply scan_condition_no_index_error, N.
  - intros ->.
    assert (F : forall memo, scan_condition memo condition = Ok Next).
    { intros memo; unfold condition, scan_condition; simpl.
      rewrite bytes_eqb_refl; reflexivity. }
    assert (S : scan_conditions (str "") (pre ++ condition :: post)
                = scan_conditions (str "") post)
      by (rewrite (scan_conditions_stop (str "") post condition Hpre), F;
          reflexivity).
    rewrite <- Ha in Hi.
    split; [exact F|split].
    + rewrite extract_memo_outcome, Hp; simpl; rewrite Hi; simpl; exact S.
    + rewrite (run_npc_matched cat_list n Hr Hm Ht Hp Hi), S; reflexivity.
Qed.

(** C6, as the code has it: bytes that are not valid UTF-8 in the second
    element of the payload of the first qualifying condition make the
    whole run fail with the decoding error.  No list is returned, so the
    coins before and after contribute no record. *)
Theorem C6_invalid_memo_aborts_the_run (r : NPCResult) (before after : list NPC)
    (n : NPC) (k : N) (puzzle solution tail_hash result : Program)
    (curried_args : list Program) (pre post more : list pyval)
    (condition : pyval) (b : bytes) :
  execute g c = Ok r -> error r = None ->
  npc_list r = before ++ n :: after ->
  Forall (processable g c) before ->
  resolve g c n = Ok (k, puzzle, solution) ->
  match_cat_puzzle puzzle = Ok (true, curried_args) ->
  unpack_tail_hash curried_args = Ok tail_hash ->
  run puzzle solution = Ok result ->
  iter (as_python result) = Ok (pre ++ condition :: post) ->
  Forall skipped pre ->
  memo_payload condition = Some (PBytes b :: more) ->
  utf8_decode (map Byte.to_N b) = None ->
  outcome (run_generator g c) = Raise UnicodeDecodeError /\
  (forall cats, outcome (run_generator g c) <> Ok cats).
Proof.
  intros He E Hl P Hr Hm Ht Hp Hi Hpre Hc Hd.
  assert (R : outcome (run_generator g c) = Raise UnicodeDecodeError).
  { rewrite (run_generator_unfold He E), Hl; simpl.
    eapply run_npcs_raise with (l0 := []); [exact P|].
    rewrite (run_npc_matched [] n Hr Hm Ht Hp Hi).
    rewrite (scan_conditions_first (str "") post condition Hpre Hc); simpl.
    unfold decode; rewrite Hd; reflexivity. }
  split; [exact R|].
  intros cats; rewrite R; discriminate.
Qed.

Lemma records_shape (n : NPC) (cat : CAT) :
  In cat (records g c n) ->
  exists k puzzle solution a t b memo,
    resolve g c n = Ok (k, puzzle, solution) /\
    match_cat_puzzle puzzle = Ok (true, [a; t; b]) /\
    cat = cat_record t memo n.
Proof.
  unfold records.
  destruct (resolve g c n) as [[[k p] s]|?]; [|intros []].
  destruct (match_cat_puzzle p) as [[[|] args]|?] eqn:Hm; try (intros []).
  destruct args as [|a [|t [|b [|? ?]]]]; try (intros []).
  destruct (outcome (extract_memo p s)) as [memo|?]; [|intros []].
  intros [<-|[]]; exists k, p, s, a, t, b, memo; auto.
Qed.

(** C2: a coin whose puzzle matches with tail-hash argument [t] appends a
    record whose [tail_hash] is the hexadecimal encoding of [bytes(t)]
    without its first two characters; every record of a returned list is
    such a record for its coin, and its [tail_hash] is written with digits
    and lowercase letters. *)
Theorem C2_tail_hash_drops_two_characters (r : NPCResult) (cats : list CAT) :
  execute g c = Ok r -> outcome (run_generator g c) = Ok cats ->
  (forall cat_list n k puzzle solution a t b memo,
     resolve g c n = Ok (k, puzzle, solution) ->
     match_cat_puzzle puzzle = Ok (true, [a; t; b]) ->
     outcome (extract_memo puzzle solution) = Ok memo ->
     outcome (run_npc g c cat_list n) =
     Ok (cat_list ++ [ {| tail_hash := skipn 2 (hex (to_bytes t));
                          memo := memo; npc := n |} ])) /\
  Forall (fun cat =>
            exists k puzzle solution a t b,
              resolve g c (npc cat) = Ok (k, puzzle, solution) /\
              match_cat_puzzle puzzle = Ok (true, [a; t; b]) /\
              tail_hash cat = skipn 2 (hex (to_bytes t)) /\
              hex (to_bytes t) = firstn 2 (hex (to_bytes t)) ++ tail_hash cat /\
              Forall (fun ch => In ch (str "0123456789abcdef"))
                     (tail_hash cat))
         cats.
Proof.
  intros He H; split.
  - intros cat_list n k p s a t b memo Hr Hm Hx.
    rewrite run_npc_unfold, Hr, Hm; simpl; rewrite Hx; reflexivity.
  - destruct (run_generator_ok_inv He H) as (_ & _ & ->).
    apply Forall_forall; intros cat Hin.
    apply in_flat_map in Hin; destruct Hin as (n & _ & Hin).
    destruct (records_shape n cat Hin) as (k & p & s & a & t & b & memo
                                           & Hr & Hm & ->).
    exists k, p, s, a, t, b; unfold cat_record; cbn [tail_hash npc].
    repeat split; auto.
    + symmetry; apply firstn_skipn.
    + pose proof (hex_lower (to_bytes t)) as L.
      rewrite <- (firstn_skipn 2 (hex (to_bytes t))) in L.
      apply Forall_app in L; tauto.
Qed.

End Generator.

(** ** The entry points *)

Section Entry.

Context {types : Types} {chia : Chia}.

Lemma executes_app (t u : list event) :
  executes (t ++ u) = executes t || executes u.
Proof. apply existsb_app. Qed.

Lemma loads_app (t u : list event) : loads (t ++ u) = loads t ++ loads u.
Proof. apply flat_map_app. Qed.

Lemma loop_cons (args : list GeneratorArg) (h : N) (l : list N) :
  ref_list_to_args_loop args (h :: l) =
  bind (load_arg h) (fun arg => ref_list_to_args_loop (args ++ [arg]) l).
Proof.
  unfold load_arg; simpl; unfold call, pure.
  destruct (open_height h) as [f|]; simpl; [|reflexivity].
  destruct (json_load f) as [j|]; simpl; [|reflexivity].
  destruct (get_transactions_generator j) as [o|]; simpl; [|reflexivity].
  destruct (fromhex_json o) as [p|]; simpl; [|reflexivity].
  match goal with |- context [ref_list_to_args_loop ?a l] =>
    destruct (ref_list_to_args_loop a l) end; reflexivity.
Qed.

Lemma load_arg_executes (h : N) : executes (trace (load_arg h)) = false.
Proof.
  unfold load_arg, call, pure.
  destruct (open_height h) as [f|]; simpl; [|reflexivity].
  destruct (json_load f) as [j|]; simpl; [|reflexivity].
  destruct (get_transactions_generator j) as [o|]; simpl; [|reflexivity].
  destruct (fromhex_json o); reflexivity.
Qed.

Lemma load_arg_missing (h : N) :
  open_height h = None -> outcome (load_arg h) = Raise FileNotFoundError.
Proof. unfold load_arg, call; intros ->; reflexivity. Qed.

Lemma load_arg_loadable (h : N) :
  loadable h -> exists arg, outcome (load_arg h) = Ok arg.
Proof.
  intros (f & j & s & p & Hf & Hj & Hs & Hp).
  unfold load_arg, call, pure; rewrite Hf; simpl; rewrite Hj; simpl.
  rewrite Hs; simpl; rewrite Hp; simpl; eauto.
Qed.

(** Loading the reference list executes nothing. *)
Lemma loop_executes (args : list GeneratorArg) (l : list N) :
  executes (trace (ref_list_to_args_loop args l)) = false.
Proof.
  revert args; induction l as [|h l IH]; intros args; [reflexivity|].
  rewrite loop_cons, bind_unfold.
  destruct (outcome (load_arg h)); simpl;
    [rewrite executes_app, IH|]; rewrite load_arg_executes; reflexivity.
Qed.

(** Loading stops at the first height that has no file. *)
Lemma loop_missing (args : list GeneratorArg) (pre post : list N) (h : N) :
  Forall loadable pre -> open_height h = None ->
  outcome (ref_list_to_args_loop args (pre ++ h :: post)) =
  Raise FileNotFoundError.
Proof.
  intros P Hh; revert args.
  induction P as [|h' l Hl _ IH]; intros args;
    cbn [app]; rewrite loop_cons, bind_unfold.
  - rewrite (load_arg_missing h Hh); reflexivity.
  - destruct (@load_arg_loadable h' Hl) as (arg & ->); simpl; apply IH.
Qed.

(** The loop over the coins opens no file. *)
Lemma run_npcs_loads (g : BlockGenerator) (c : ConsensusConstants)
    (cat_list : list CAT) (l : list NPC) :
  loads (trace (run_npcs g c cat_list l)) = [].
Proof.
  revert cat_list; induction l as [|n l IH]; intros cat_list; [reflexivity|].
  simpl; rewrite bind_unfold.
  assert (Hn : loads (trace (run_npc g c cat_list n)) = []).
  { rewrite run_npc_unfold.
    destruct (resolve g c n) as [[[k p] s]|?]; [|reflexivity].
    destruct (match_cat_puzzle p) as [[[|] args]|?]; try reflexivity.
    destruct (unpack_tail_hash args); reflexivity. }
  destruct (outcome (run_npc g c cat_list n)); simpl;
    [rewrite loads_app, IH|]; rewrite Hn; reflexivity.
Qed.

Lemma run_generator_loads (g : BlockGenerator) (c : ConsensusConstants) :
  loads (trace (run_generator g c)) = [].
Proof.
  unfold run_generator, call; rewrite bind_unfold; simpl.
  destruct (get_name_puzzle_conditions _ _ _ _) as [r|]; [|reflexivity].
  destruct (error r); simpl; [reflexivity|apply run_npcs_loads].
Qed.

Lemma bind_loads {A B} (m : M A) (k : A -> M B) :
  loads (trace m) = [] -> (forall a, loads (trace (k a)) = []) ->
  loads (trace (bind m k)) = [].
Proof.
  intros Hm Hk; rewrite bind_unfold.
  destruct (outcome m); simpl; [rewrite loads_app, Hm, Hk|]; auto.
Qed.

Lemma run_generator_with_args_loads (generator_program_hex : option pystr)
    (args : list GeneratorArg) (c : ConsensusConstants) :
  loads (trace (run_generator_with_args generator_program_hex args c)) = [].
Proof.
  unfold run_generator_with_args.
  destruct (falsy generator_program_hex); [reflexivity|].
  apply bind_loads; [reflexivity|].
  intros a; apply run_generator_loads.
Qed.

(** [run_full_block] is the loading of the reference list followed by the
    test of the generator. *)
Lemma run_full_block_unfold (block : FullBlock) (c : ConsensusConstants) :
  run_full_block block c =
  match outcome (ref_list_to_args (transactions_generator_ref_list block)) with
  | Raise e =>
    (trace (ref_list_to_args (transactions_generator_ref_list block)), Raise e)
  | Ok generator_args =>
    match transactions_generator block with
    | None =>
      (trace (ref_list_to_args (transactions_generator_ref_list block)),
       Raise (RuntimeError "transactions_generator of FullBlock is null"))
    | Some p =>
      let g := {| program := p; generator_refs := generator_args |} in
      (trace (ref_list_to_args (transactions_generator_ref_list block))
         ++ trace (run_generator g c),
       outcome (run_generator g c))
    end
  end.
Proof.
  unfold run_full_block; rewrite bind_unfold.
  destruct (outcome (ref_list_to_args _)); [|reflexivity].
  destruct (transactions_generator block); simpl;
    [|rewrite app_nil_r]; reflexivity.
Qed.

(** C4: [run_full_block] on a block without a generator always raises,
    with the runtime error of line 146 once the reference list is loaded,
    and executes nothing; [run_generator_with_args] on the empty string, or
    on [None], returns the empty list and calls nothing at all. *)
Theorem C4_absent_generator_asymmetry (block : FullBlock)
    (c : ConsensusConstants) (args : list GeneratorArg) :
  transactions_generator block = None ->
  (exists e, outcome (run_full_block block c) = Raise e) /\
  (forall generator_args,
     outcome (ref_list_to_args (transactions_generator_ref_list block))
     = Ok generator_args ->
     outcome (run_full_block block c)
     = Raise (RuntimeError "transactions_generator of FullBlock is null")) /\
  executes (trace (run_full_block block c)) = false /\
  run_generator_with_args (Some (str "")) args c = ([], Ok []) /\
  run_generator_with_args None args c = ([], Ok []).
Proof.
  intros H; rewrite run_full_block_unfold, H.
  pose proof (loop_executes [] (transactions_generator_ref_list block)) as X.
  fold (ref_list_to_args (transactions_generator_ref_list block)) in X.
  destruct (outcome (ref_list_to_args _)) as [ga|e]; simpl;
    repeat split; eauto; try discriminate.
Qed.

(** C9: both entry points load the reference list first.  When a height of
    the list has no file, and the heights before it are loadable, the run
    fails with the lookup error and executes nothing, whatever the
    generator of the block is, absent and empty included.  In any run,
    what follows the loading of the list opens no file. *)
Theorem C9_reference_list_is_loaded_first (pre post : list N) (h : N) :
  Forall loadable pre -> open_height h = None ->
  (forall block c,
     transactions_generator_ref_list block = pre ++ h :: post ->
     outcome (run_full_block block c) = Raise FileNotFoundError /\
     executes (trace (run_full_block block c)) = false) /\
  (forall file constants j,
     load_constants = Ok constants -> json_load file = Ok j ->
     get_transactions_generator_ref_list j = Ok (pre ++ h :: post) ->
     outcome (run_json_block_file file) = Raise FileNotFoundError /\
     executes (trace (run_json_block_file file)) = false) /\
  (forall block c,
     exists t, trace (run_full_block block c) =
               trace (ref_list_to_args (transactions_generator_ref_list block))
               ++ t /\ loads t = []) /\
  (forall file constants j ref_list,
     load_constants = Ok constants -> json_load file = Ok j ->
     get_transactions_generator_ref_list j = Ok ref_list ->
     exists t, trace (run_json_block_file file) =
               [EConfig; ELoad file] ++ trace (ref_list_to_args ref_list) ++ t
               /\ loads t = []).
Proof.
  intros P Hh.
  assert (R : outcome (ref_list_to_args (pre ++ h :: post))
              = Raise FileNotFoundError) by (apply loop_missing; assumption).
  pose proof (loop_executes [] (pre ++ h :: post)) as X.
  fold (ref_list_to_args (pre ++ h :: post)) in X.
  split; [|split; [|split]].
  - intros block c Hl.
    rewrite run_full_block_unfold, Hl, R; simpl; auto.
  - intros file constants j Hc Hj Hl.
    unfold run_json_block_file, get_config_and_constants, call, pure.
    rewrite bind_unfold; cbn [outcome trace fst snd]; rewrite Hc; cbn iota beta.
    rewrite bind_unfold; cbn [outcome trace fst snd]; rewrite Hj; cbn iota beta.
    rewrite bind_unfold; cbn [outcome trace fst snd]; rewrite Hl; cbn iota beta.
    rewrite bind_unfold, R; cbn [outcome trace fst snd app].
    split; [reflexivity|exact X].
  - intros block c; rewrite run_full_block_unfold.
    destruct (outcome (ref_list_to_args
                         (transactions_generator_ref_list block))) as [ga|e].
    + destruct (transactions_generator block) as [p|]; simpl.
      * eexists; split; [reflexivity|apply run_generator_loads].
      * exists []; rewrite app_nil_r; split; reflexivity.
    + exists []; rewrite app_nil_r; split; reflexivity.
  - intros file constants j ref_list Hc Hj Hl.
    unfold run_json_block_file, get_config_and_constants, call, pure.
    rewrite bind_unfold; cbn [outcome trace fst snd]; rewrite Hc; cbn iota beta.
    rewrite bind_unfold; cbn [outcome trace fst snd]; rewrite Hj; cbn iota beta.
    rewrite bind_unfold; cbn [outcome trace fst snd]; rewrite Hl; cbn iota beta.
    rewrite bind_unfold.
    destruct (outcome (ref_list_to_args ref_list)) as [ga|e];
      cbn [outcome trace fst snd app].
    + eexists; split; [reflexivity|].
      apply bind_loads; [reflexivity|]; intros hex.
      apply bind_loads; [apply run_generator_with_args_loads|]; intros cats.
      apply bind_loads; [reflexivity|]; intros dicts; reflexivity.
    + exists []; rewrite app_nil_r; split; reflexivity.
Qed.

End Entry.

(** ** Serialisation *)

Section Serialisation.

Context {types : Types} {chia : Chia}.


(** The assertion of line 77 holds exactly on a group whose members carry
    the opcode of the group. *)
Lemma grouping_test (group : ConditionOpcode * list ConditionWithArgs) :
  forallb (fun cwa => opcode_eqb (fst group) (opcode cwa)) (snd group) = true
  <-> Forall (fun cwa => opcode cwa = fst group) (snd group).
Proof.
  rewrite forallb_forall, Forall_forall.
  split; intros H cwa Hin; specialize (H cwa Hin).
  - symmetry; apply opcode_eqb_eq; exact H.
  - apply opcode_eqb_eq; auto.
Qed.


Lemma map_res_raise {A B} (f : A -> res B) (l : list A) (e : exn) :
  map_res f l = Raise e -> exists x, In x l /\ f x = Raise e.
Proof.
  induction l as [|x l IH]; simpl; [discriminate|].
  destruct (f x) as [y|e'] eqn:Hx; simpl.
  - destruct (map_res f l) as [ys|e'']; simpl; [discriminate|].
    intros [= ->]; destruct (IH eq_refl) as (x' & Hin & Hx'); eauto.
  - intros [= ->]; eauto.
Qed.

Lemma map_res_ok_inv {A B} (f : A -> res B) (l : list A) (ys : list B) :
  map_res f l = Ok ys -> Forall (fun x => exists y, f x = Ok y) l.
Proof.
  revert ys; induction l as [|x l IH]; intros ys; simpl; [constructor|].
  destruct (f x) as [y|] eqn:Hx; simpl; [|discriminate].
  destruct (map_res f l) as [zs|] eqn:Hl; simpl; [|discriminate].
  intros _; constructor; eauto.
Qed.




Variable g : BlockGenerator.
Variable c : ConsensusConstants.


End Serialisation.

(** * Further properties *)

(** ** The shape of traces *)

Section Shapes.

Context {types : Types}.

Lemma flat_map_none {A B} (f : A -> list B) (l : list A) :
  Forall (fun x => f x = []) l -> flat_map f l = [].
Proof.
  induction 1 as [|x l Hx _ IH]; simpl; [reflexivity|].
  rewrite Hx, IH; reflexivity.
Qed.

Lemma coin_events_quiet (t : list event) :
  Forall (fun ev => coin_event ev = true) t ->
  executions t = [] /\ prints t = [] /\ loads t = [].
Proof.
  intros H; repeat split; apply flat_map_none;
    (eapply Forall_impl; [|exact H]); intros [] E; try reflexivity;
      discriminate E.
Qed.

Lemma load_events_quiet (t : list event) :
  Forall (fun ev => load_event ev = true) t ->
  executions t = [] /\ prints t = [] /\ puzzle_runs t = [] /\ resolved t = [].
Proof.
  intros H; repeat split; apply flat_map_none;
    (eapply Forall_impl; [|exact H]); intros [] E; try reflexivity;
      discriminate E.
Qed.

Lemma bind_events {A B} (P : event -> Prop) (m : M A) (k : A -> M B) :
  Forall P (trace m) -> (forall a, Forall P (trace (k a))) ->
  Forall P (trace (bind m k)).
Proof.
  intros Hm Hk; rewrite bind_unfold.
  destruct (outcome m); simpl; [apply Forall_app; split|]; auto.
Qed.

End Shapes.

Section CoinTraces.

Context {types : Types} {chia : Chia}.

Variable g : BlockGenerator.
Variable c : ConsensusConstants.

Lemma run_npc_events (cat_list : list CAT) (n : NPC) :
  Forall (fun ev => coin_event ev = true) (trace (run_npc g c cat_list n)).
Proof.
  rewrite run_npc_unfold.
  destruct (resolve g c n) as [[[k p] s]|?]; [|repeat constructor].
  destruct (match_cat_puzzle p) as [[[|] args]|?]; try (repeat constructor).
  destruct (unpack_tail_hash args); repeat constructor.
Qed.

Lemma run_npcs_events (cat_list : list CAT) (l : list NPC) :
  Forall (fun ev => coin_event ev = true) (trace (run_npcs g c cat_list l)).
Proof.
  revert cat_list; induction l as [|n l IH]; intros cat_list; simpl;
    [constructor|].
  apply bind_events; [apply run_npc_events|intros a; apply IH].
Qed.

(** The first event of the loop body is the lookup of the coin, and there
    is no other lookup. *)
Lemma run_npc_resolved (cat_list : list CAT) (n : NPC) :
  resolved (trace (run_npc g c cat_list n)) = [coin_name n].
Proof.
  rewrite run_npc_unfold.
  destruct (resolve g c n) as [[[k p] s]|?]; [|reflexivity].
  destruct (match_cat_puzzle p) as [[[|] args]|?]; try reflexivity.
  destruct (unpack_tail_hash args); reflexivity.
Qed.

(** A coin that is not processable makes the loop body raise. *)
Lemma run_npc_unprocessable (cat_list : list CAT) (n : NPC) :
  ~ processable g c n -> exists e, outcome (run_npc g c cat_list n) = Raise e.
Proof.
  intros N.
  destruct (outcome (run_npc g c cat_list n)) as [cl|e] eqn:E; [|eauto].
  apply run_npc_ok_inv in E; contradiction.
Qed.

(** The loop up to and including the first coin that is not processable. *)
Lemma run_npcs_stops (cat_list : list CAT) (pre post : list NPC) (n : NPC) :
  Forall (processable g c) pre -> ~ processable g c n ->
  (exists e, outcome (run_npcs g c cat_list (pre ++ n :: post)) = Raise e) /\
  resolved (trace (run_npcs g c cat_list (pre ++ n :: post)))
  = map coin_name (pre ++ [n]).
Proof.
  intros P N; revert cat_list.
  induction P as [|n' l Hn' _ IH]; intros cat_list; cbn [app run_npcs map];
    rewrite bind_unfold.
  - destruct (run_npc_unprocessable cat_list N) as [e E]; rewrite E; simpl.
    rewrite run_npc_resolved; eauto.
  - rewrite (run_npc_processable cat_list Hn'); cbn [trace outcome fst snd].
    rewrite resolved_app, run_npc_resolved.
    destruct (IH (cat_list ++ records g c n')) as [X ->]; auto.
Qed.

(** One puzzle is run for each record added. *)
Lemma run_npc_runs_once (cat_list cat_list' : list CAT) (n : NPC) :
  outcome (run_npc g c cat_list n) = Ok cat_list' ->
  List.length (puzzle_runs (trace (run_npc g c cat_list n)))
  + List.length cat_list = List.length cat_list'.
Proof.
  rewrite run_npc_unfold.
  destruct (resolve g c n) as [[[k p] s]|?]; [|discriminate].
  destruct (match_cat_puzzle p) as [[[|] args]|?]; try discriminate.
  - destruct (unpack_tail_hash args); [|discriminate]; simpl.
    destruct (outcome (extract_memo p s)); [|discriminate].
    intros [= <-]; rewrite length_app; simpl; lia.
  - intros [= <-]; reflexivity.
Qed.

Lemma puzzle_runs_app (t u : list event) :
  puzzle_runs (t ++ u) = puzzle_runs t ++ puzzle_runs u.
Proof. apply flat_map_app. Qed.

Lemma run_npcs_runs_once (cat_list cat_list' : list CAT) (l : list NPC) :
  outcome (run_npcs g c cat_list l) = Ok cat_list' ->
  List.length (puzzle_runs (trace (run_npcs g c cat_list l)))
  + List.length cat_list = List.length cat_list'.
Proof.
  revert cat_list; induction l as [|n l IH]; intros cat_list; simpl.
  - intros [= <-]; reflexivity.
  - rewrite bind_unfold.
    destruct (outcome (run_npc g c cat_list n)) as [cl|e] eqn:E;
      [|discriminate].
    simpl; intros H.
    rewrite puzzle_runs_app, length_app.
    pose proof (run_npc_runs_once _ _ E); pose proof (IH _ H); lia.
Qed.

(** A run starts with the execution of the generator; the rest of its
    trace belongs to the loop over the coins. *)
Lemma run_generator_events :
  exists t,
    trace (run_generator g c) = EGenerator g :: t /\
    Forall (fun ev => coin_event ev = true) t.
Proof.
  unfold run_generator, call; rewrite bind_unfold; simpl.
  destruct (get_name_puzzle_conditions _ _ _ _) as [r|e]; simpl.
  - destruct (error r) as [code|]; simpl.
    + exists []; split; constructor.
    + exists (trace (run_npcs g c [] (npc_list r))).
      split; [reflexivity|apply run_npcs_events].
  - exists []; split; constructor.
Qed.

(** X1: the generator is executed exactly once in a run, as its first
    action; everything after it is a lookup, a template test or a puzzle
    run for a coin, and no file is opened and nothing is printed. *)
Theorem X1_generator_executed_once :
  exists t,
    trace (run_generator g c) = EGenerator g :: t /\
    Forall (fun ev => coin_event ev = true) t /\
    executions (trace (run_generator g c)) = [g] /\
    loads (trace (run_generator g c)) = [] /\
    prints (trace (run_generator g c)) = [].
Proof.
  destruct run_generator_events as (t & E & F).
  exists t; rewrite E; simpl.
  destruct (coin_events_quiet F) as (X & P & L).
  rewrite X; auto.
Qed.

(** X2: a run returns a list exactly when the execution reports no error
    and every coin is processable, and the list is then the concatenation,
    in the order of the execution result, of what each coin yields on its
    own. *)
Theorem X2_output_is_concatenation (r : NPCResult) (cats : list CAT) :
  execute g c = Ok r ->
  (outcome (run_generator g c) = Ok cats <->
   error r = None /\ Forall (processable g c) (npc_list r) /\
   cats = flat_map (records g c) (npc_list r)).
Proof.
  intros He; split.
  - apply run_generator_ok_inv, He.
  - intros (E & P & ->).
    rewrite (run_generator_unfold g c He E); simpl.
    exact (run_npcs_processable [] P).
Qed.

(** X3: a run that returns a list has run one puzzle for each record of
    the list. *)
Theorem X3_one_puzzle_run_per_record (r : NPCResult) (cats : list CAT) :
  execute g c = Ok r -> outcome (run_generator g c) = Ok cats ->
  List.length (puzzle_runs (trace (run_generator g c))) = List.length cats.
Proof.
  intros He H.
  destruct (run_generator_ok_inv g c He H) as (E & _ & _).
  revert H; rewrite (run_generator_unfold g c He E); simpl; intros H.
  pose proof (run_npcs_runs_once _ _ H) as L; simpl in L; lia.
Qed.

(** X4: the run stops at the first coin that is not processable: it
    raises, and the coins after that one are never looked up. *)
Theorem X4_stops_at_first_failing_coin (r : NPCResult) (pre post : list NPC)
    (n : NPC) :
  execute g c = Ok r -> error r = None ->
  npc_list r = pre ++ n :: post ->
  Forall (processable g c) pre -> ~ processable g c n ->
  (exists e, outcome (run_generator g c) = Raise e) /\
  resolved (trace (run_generator g c)) = map coin_name (pre ++ [n]).
Proof.
  intros He E Hl P N.
  rewrite (run_generator_unfold g c He E), Hl; simpl.
  apply run_npcs_stops; assumption.
Qed.

(** X5: a puzzle that matches the template with other than three curried
    arguments makes the unpacking of line 107 fail with a value error, and
    the puzzle is not run. *)
Theorem X5_wrong_number_of_curried_arguments (cat_list : list CAT) (n : NPC)
    (k : N) (puzzle solution : Program) (curried_args : list Program) :
  resolve g c n = Ok (k, puzzle, solution) ->
  match_cat_puzzle puzzle = Ok (true, curried_args) ->
  List.length curried_args <> 3 ->
  run_npc g c cat_list n
  = ([EResolve (coin_name n); EMatch puzzle], Raise ValueError).
Proof.
  intros Hr Hm Hl; rewrite run_npc_unfold, Hr, Hm.
  destruct curried_args as [|? [|? [|? [|? ?]]]]; try reflexivity.
  contradiction Hl; reflexivity.
Qed.

(** X6: the [tail_hash] of every record of a returned list is the
    encoding of [bytes(t)] without its first byte, and has two characters
    for each of the other bytes. *)
Theorem X6_tail_hash_drops_first_byte (r : NPCResult) (cats : list CAT) :
  execute g c = Ok r -> outcome (run_generator g c) = Ok cats ->
  Forall (fun cat =>
            exists k puzzle solution a t b,
              resolve g c (npc cat) = Ok (k, puzzle, solution) /\
              match_cat_puzzle puzzle = Ok (true, [a; t; b]) /\
              tail_hash cat = hex (tl (to_bytes t)) /\
              List.length (tail_hash cat)
              = 2 * (List.length (to_bytes t) - 1))
         cats.
Proof.
  intros He H.
  destruct (run_generator_ok_inv g c He H) as (_ & _ & ->).
  apply Forall_forall; intros cat Hin.
  apply in_flat_map in Hin; destruct Hin as (n & _ & Hin).
  destruct (records_shape g c n cat Hin)
    as (k & p & s & a & t & b & memo & Hr & Hm & ->).
  exists k, p, s, a, t, b; unfold cat_record; cbn [tail_hash npc].
  assert (E : skipn 2 (hex (to_bytes t)) = hex (tl (to_bytes t)))
    by (destruct (to_bytes t); reflexivity).
  rewrite E, hex_length.
  repeat split; auto.
  destruct (to_bytes t); simpl; lia.
Qed.

End CoinTraces.

(** ** More on the memo scan *)

Section ScanEdges.

Context {types : Types} {chia : Chia}.

Ltac split_tests :=
  repeat (simpl in *; rewrite ?retirement_test in *; try easy;
          try congruence;
          match goal with
          | E : Ok _ = Ok _ |- _ => inversion E; clear E
          | E : Some _ = Some _ |- _ => inversion E; clear E
          | E : _ && _ = false |- _ => apply andb_false_iff in E; destruct E
          | E : _ && _ = true |- _ => apply andb_true_iff in E; destruct E
          | E : context [if ?t then _ else _] |- _ => destruct t eqn:?
          | E : context [match ?t with _ => _ end] |- _ => destruct t eqn:?
          | |- context [match ?t with _ => _ end] => destruct t eqn:?
          end; subst).

(** The loop breaks only on a qualifying condition. *)
Lemma scan_condition_break_inv (memo m : pystr) (c : pyval) :
  scan_condition memo c = Ok (Break m) -> memo_payload c <> None.
Proof.
  unfold scan_condition, memo_payload, getitem, len, eq_bytes, is_list, py_hex.
  intros H; unfold rbind in H; split_tests.
Qed.

(** X7: what one pass through the loop body does is decided by the shape
    of the condition.  It goes on to the next condition exactly when the
    condition is well formed and does not qualify; it breaks exactly when
    the condition qualifies and its payload, if it has a second element,
    decodes, the memo being the decoded text, or the memo so far when
    there is no second element. *)
Theorem X7_loop_body_classified (memo : pystr) (c : pyval) :
  (scan_condition memo c = Ok Next <-> skipped c) /\
  (forall m,
     scan_condition memo c = Ok (Break m) <->
     exists rest,
       memo_payload c = Some rest /\
       match rest with
       | [] => m = memo
       | x :: _ => py_decode x = Ok m
       end).
Proof.
  split.
  - split; [apply scan_condition_next_inv|apply scan_condition_next].
  - intros m; split.
    + intros H.
      destruct (memo_payload c) as [rest|] eqn:E;
        [|apply scan_condition_break_inv in H; contradiction].
      exists rest; split; [reflexivity|].
      rewrite (scan_condition_break memo c E) in H.
      destruct rest as [|x rest]; [congruence|].
      destruct (py_decode x); simpl in H; congruence.
    + intros (rest & E & H).
      rewrite (scan_condition_break memo c E).
      destruct rest as [|x rest]; [congruence|].
      rewrite H; reflexivity.
Qed.

(** X8: conditions that are not CREATE_COIN conditions, CREATE_COIN
    conditions of fewer than four elements, and CREATE_COIN conditions
    whose fourth element is a byte string are all passed over: the scan of
    a list of such conditions raises nothing and leaves the memo as it
    was. *)
Theorem X8_conditions_without_memo (memo : pystr) (l : list pyval) :
  Forall (fun condition =>
            exists op args,
              condition = PList (PBytes op :: args) /\
              (bytes_eqb op CREATE_COIN = false \/
               List.length args < 3 \/
               exists b, nth_error args 2 = Some (PBytes b))) l ->
  scan_conditions memo l = Ok memo.
Proof.
  intros H; apply scan_conditions_skipped.
  eapply Forall_impl; [|exact H].
  intros condition (op & args & -> & C); unfold skipped; simpl.
  destruct C as [E|[L|[b E]]].
  - rewrite E; destruct args as [|? [|? [|[] ?]]]; auto.
    destruct l0 as [|[] ?]; auto.
  - destruct args as [|? [|? [|? ?]]]; simpl in L; try lia;
      destruct (bytes_eqb op CREATE_COIN); auto.
  - destruct args as [|? [|? [|? ?]]]; try discriminate E.
    injection E as ->; destruct (bytes_eqb op CREATE_COIN); auto.
Qed.

(** X9: in a CREATE_COIN condition of at least four elements, a fourth
    element that is a list whose first element is not a byte string makes
    the loop body fail with an attribute error at [.hex()]; and a payload
    that starts with the sentinel and whose second element is not a byte
    string makes it fail with an attribute error at [.decode]. *)
Theorem X9_elements_that_are_not_bytes (memo : pystr)
    (ph amount x : pyval) (more rest : list pyval) :
  (forall b, x <> PBytes b) ->
  scan_condition memo
    (PList (PBytes CREATE_COIN :: ph :: amount :: PList (x :: more) :: rest))
  = Raise AttributeError /\
  scan_condition memo
    (PList (PBytes CREATE_COIN :: ph :: amount
            :: PList (PBytes zero32 :: x :: more) :: rest))
  = Raise AttributeError.
Proof.
  intros H; unfold scan_condition; simpl; rewrite bytes_eqb_refl; simpl.
  destruct x as [z|b|l|u v]; try (split; reflexivity).
  contradiction (H b); reflexivity.
Qed.

(** X10: when the value the puzzle returns is an atom, there is nothing to
    scan if the atom is empty, and the memo is the empty string; if it is
    not empty the loop visits its bytes as integers and the first
    subscript fails with a type error. *)
Theorem X10_puzzle_returns_an_atom (puzzle solution result : Program)
    (b : bytes) :
  run puzzle solution = Ok result -> as_python result = PBytes b ->
  outcome (extract_memo puzzle solution)
  = match b with
    | [] => Ok (str "")
    | _ :: _ => Raise TypeError
    end.
Proof.
  intros Hr Hp; rewrite extract_memo_outcome, Hr; simpl; rewrite Hp.
  destruct b; reflexivity.
Qed.

End ScanEdges.

(** ** More on the entry points *)

Section Loads.

Context {types : Types} {chia : Chia}.

Lemma load_arg_events (h : N) :
  Forall (fun ev => load_event ev = true) (trace (load_arg h)).
Proof.
  unfold load_arg, call, pure.
  destruct (open_height h) as [f|]; simpl; [|repeat constructor].
  destruct (json_load f) as [j|]; simpl; [|repeat constructor].
  destruct (get_transactions_generator j) as [o|]; simpl;
    [|repeat constructor].
  destruct (fromhex_json o); repeat constructor.
Qed.

Lemma load_arg_loads (h : N) : loads (trace (load_arg h)) = [h].
Proof.
  unfold load_arg, call, pure.
  destruct (open_height h) as [f|]; simpl; [|reflexivity].
  destruct (json_load f) as [j|]; simpl; [|reflexivity].
  destruct (get_transactions_generator j) as [o|]; simpl; [|reflexivity].
  destruct (fromhex_json o); reflexivity.
Qed.

Lemma load_arg_ok_inv (h : N) (arg : GeneratorArg) :
  outcome (load_arg h) = Ok arg -> loaded h arg.
Proof.
  unfold load_arg, call, pure, loaded.
  destruct (open_height h) as [f|] eqn:Hf; simpl; [|discriminate].
  destruct (json_load f) as [j|] eqn:Hj; simpl; [|discriminate].
  destruct (get_transactions_generator j) as [[s|]|] eqn:Hs; simpl;
    try discriminate.
  destruct (fromhex s) as [p|] eqn:Hp; simpl; [|discriminate].
  intros [= <-]; simpl; split; [reflexivity|].
  exists f, j, s; repeat split; assumption.
Qed.

Lemma load_arg_loaded (h : N) (arg : GeneratorArg) :
  loaded h arg -> outcome (load_arg h) = Ok arg.
Proof.
  intros (Hh & f & j & s & Hf & Hj & Hs & Hp).
  unfold load_arg, call, pure; rewrite Hf; simpl; rewrite Hj; simpl.
  rewrite Hs; simpl; rewrite Hp; simpl.
  destruct arg as [bh gp]; simpl in *; subst; reflexivity.
Qed.

Lemma loadable_loaded (h : N) : loadable h <-> exists arg, loaded h arg.
Proof.
  split.
  - intros (f & j & s & p & Hf & Hj & Hs & Hp).
    exists {| block_height := h; generator := p |}; split; [reflexivity|].
    exists f, j, s; repeat split; assumption.
  - intros (arg & _ & f & j & s & Hf & Hj & Hs & Hp).
    exists f, j, s, (generator arg); repeat split; assumption.
Qed.

Lemma load_arg_unloadable (h : N) :
  ~ loadable h -> exists e, outcome (load_arg h) = Raise e.
Proof.
  intros N.
  destruct (outcome (load_arg h)) as [arg|e] eqn:E; [|eauto].
  contradiction N; apply loadable_loaded; exists arg.
  apply load_arg_ok_inv, E.
Qed.

Lemma loop_events (args : list GeneratorArg) (l : list N) :
  Forall (fun ev => load_event ev = true)
         (trace (ref_list_to_args_loop args l)).
Proof.
  revert args; induction l as [|h l IH]; intros args; [constructor|].
  rewrite loop_cons.
  apply bind_events; [apply load_arg_events|intros a; apply IH].
Qed.

(** A loop that returns has loaded every height, in order, and added the
    arguments to the end of the list. *)
Lemma loop_ok_inv (args result : list GeneratorArg) (l : list N) :
  outcome (ref_list_to_args_loop args l) = Ok result ->
  exists new, result = args ++ new /\ Forall2 loaded l new /\
              loads (trace (ref_list_to_args_loop args l)) = l.
Proof.
  revert args; induction l as [|h l IH]; intros args.
  - simpl; intros [= <-]; exists []; rewrite app_nil_r; auto.
  - rewrite loop_cons, bind_unfold.
    destruct (outcome (load_arg h)) as [arg|e] eqn:E; [|discriminate].
    cbn [outcome trace fst snd]; intros H.
    destruct (IH _ H) as (new & -> & F & L).
    exists (arg :: new); rewrite <- app_assoc; split; [reflexivity|].
    split; [constructor; [apply load_arg_ok_inv, E|exact F]|].
    rewrite loads_app, load_arg_loads, L; reflexivity.
Qed.

Lemma loop_loaded (args new : list GeneratorArg) (l : list N) :
  Forall2 loaded l new ->
  outcome (ref_list_to_args_loop args l) = Ok (args ++ new).
Proof.
  intros F; revert args.
  induction F as [|h arg l new Hh _ IH]; intros args.
  - simpl; rewrite app_nil_r; reflexivity.
  - rewrite loop_cons, bind_unfold, (load_arg_loaded Hh).
    cbn [outcome snd]; rewrite IH, <- app_assoc; reflexivity.
Qed.

Lemma loop_stops (args : list GeneratorArg) (pre post : list N) (h : N) :
  Forall loadable pre -> ~ loadable h ->
  (exists e, outcome (ref_list_to_args_loop args (pre ++ h :: post))
             = Raise e) /\
  loads (trace (ref_list_to_args_loop args (pre ++ h :: post))) = pre ++ [h].
Proof.
  intros P N; revert args.
  induction P as [|h' l Hl _ IH]; intros args; cbn [app];
    rewrite loop_cons, bind_unfold.
  - destruct (load_arg_unloadable N) as [e ->]; simpl.
    rewrite load_arg_loads; eauto.
  - apply loadable_loaded in Hl; destruct Hl as [arg Hl].
    rewrite (load_arg_loaded Hl); cbn [outcome trace fst snd].
    rewrite loads_app, load_arg_loads.
    destruct (IH (args ++ [arg])) as [X ->]; auto.
Qed.

Lemma loadable_all_loaded (l : list N) :
  Forall loadable l -> exists new, Forall2 loaded l new.
Proof.
  induction 1 as [|h l Hh _ [new IH]]; [exists []; constructor|].
  apply loadable_loaded in Hh; destruct Hh as [arg Hh].
  exists (arg :: new); constructor; auto.
Qed.

(** X11: [ref_list_to_args] returns exactly when every height of the list
    is loadable.  The list returned has one argument for each height, in
    the order of the list, each carrying its height and the program
    decoded from the record of that height; the files opened are those of
    the list, in order, each once. *)
Theorem X11_reference_list_loaded_in_order (ref_list : list N) :
  ((exists args, outcome (ref_list_to_args ref_list) = Ok args) <->
   Forall loadable ref_list) /\
  (forall args,
     outcome (ref_list_to_args ref_list) = Ok args ->
     Forall2 loaded ref_list args /\
     map block_height args = ref_list /\
     loads (trace (ref_list_to_args ref_list)) = ref_list).
Proof.
  assert (I : forall args, outcome (ref_list_to_args ref_list) = Ok args ->
                           Forall2 loaded ref_list args /\
                           loads (trace (ref_list_to_args ref_list))
                           = ref_list).
  { intros args H; destruct (loop_ok_inv _ _ H) as (new & -> & F & L).
    auto. }
  split; [split|].
  - intros [args H]; destruct (I args H) as [F _].
    clear H I; induction F as [|h arg l new Hh _ IH]; constructor; auto.
    apply loadable_loaded; eauto.
  - intros P.
    destruct (loadable_all_loaded P) as [new F].
    exists new; apply (loop_loaded [] F).
  - intros args H; destruct (I args H) as [F L]; repeat split; auto.
    clear H I L; induction F as [|h arg l new [Hh _] _ IH]; simpl;
      congruence.
Qed.

(** X12: [ref_list_to_args] stops at the first height that is not
    loadable, whether its file is missing, cannot be parsed, has no
    generator or has one that is not hexadecimal: it raises, and no file
    of a later height is opened. *)
Theorem X12_loading_stops_at_first_failure (pre post : list N) (h : N) :
  Forall loadable pre -> ~ loadable h ->
  (exists e, outcome (ref_list_to_args (pre ++ h :: post)) = Raise e) /\
  loads (trace (ref_list_to_args (pre ++ h :: post))) = pre ++ [h].
Proof. intros P N; apply loop_stops; assumption. Qed.

End Loads.

Section EntryPoints.

Context {types : Types} {chia : Chia}.

Lemma bind_in {A B} (ev : event) (m : M A) (k : A -> M B) :
  In ev (trace (bind m k)) ->
  In ev (trace m) \/ exists a, outcome m = Ok a /\ In ev (trace (k a)).
Proof.
  rewrite bind_unfold.
  destruct (outcome m) as [a|e]; simpl; [|auto].
  rewrite in_app_iff; intros [H|H]; eauto.
Qed.

Lemma bind_pointwise {A B} (m : M A) (k k' : A -> M B) :
  (forall a, outcome m = Ok a -> k a = k' a) -> bind m k = bind m k'.
Proof.
  intros H; rewrite !bind_unfold.
  destruct (outcome m) as [a|e]; [rewrite (H a eq_refl)|]; reflexivity.
Qed.

Lemma not_load_event (g : BlockGenerator) (t : list event) :
  Forall (fun ev => load_event ev = true) t -> ~ In (EGenerator g) t.
Proof.
  intros F H; rewrite Forall_forall in F.
  specialize (F _ H); discriminate F.
Qed.

Lemma run_generator_in (g g' : BlockGenerator) (c : ConsensusConstants) :
  In (EGenerator g') (trace (run_generator g c)) -> g' = g.
Proof.
  destruct (run_generator_events g c) as (t & -> & F).
  intros [[= ->]|H]; [reflexivity|].
  rewrite Forall_forall in F; specialize (F _ H); discriminate F.
Qed.

Lemma run_generator_executions (g : BlockGenerator) (c : ConsensusConstants) :
  executions (trace (run_generator g c)) = [g].
Proof.
  destruct (run_generator_events g c) as (t & -> & F); simpl.
  rewrite (proj1 (coin_events_quiet F)); reflexivity.
Qed.

Lemma executions_app (t u : list event) :
  executions (t ++ u) = executions t ++ executions u.
Proof. apply flat_map_app. Qed.

(** X13: when [run_full_block] executes a generator, it is the generator
    of the block with one argument for each height of the reference list,
    in order, each loaded from the record of its height; and it is the
    only execution of the run. *)
Theorem X13_full_block_executes_its_generator (block : FullBlock)
    (c : ConsensusConstants) (g : BlockGenerator) :
  In (EGenerator g) (trace (run_full_block block c)) ->
  transactions_generator block = Some (program g) /\
  Forall2 loaded (transactions_generator_ref_list block) (generator_refs g) /\
  executions (trace (run_full_block block c)) = [g].
Proof.
  rewrite run_full_block_unfold.
  pose proof (loop_events [] (transactions_generator_ref_list block)) as F.
  fold (ref_list_to_args (transactions_generator_ref_list block)) in F.
  destruct (outcome (ref_list_to_args
                       (transactions_generator_ref_list block)))
    as [args|e] eqn:E;
    [|intros H; contradiction (@not_load_event g _ F H)].
  destruct (transactions_generator block) as [p|];
    [|intros H; contradiction (@not_load_event g _ F H)].
  cbn [trace fst]; rewrite in_app_iff.
  intros [H|H]; [contradiction (@not_load_event g _ F H)|].
  apply run_generator_in in H; subst g; cbn [program generator_refs].
  split; [reflexivity|split].
  - destruct (loop_ok_inv _ _ E) as (new & -> & L & _); exact L.
  - rewrite executions_app, run_generator_executions.
    rewrite (proj1 (load_events_quiet F)); reflexivity.
Qed.

(** X14: on a block that has a generator, [run_full_block] does what
    [run_generator_with_args] does on the hexadecimal text of that
    generator with the arguments loaded for the reference list. *)
Theorem X14_entry_points_agree (block : FullBlock) (c : ConsensusConstants)
    (p : SerializedProgram) (s : pystr) :
  transactions_generator block = Some p ->
  s <> [] -> fromhex s = Ok p ->
  run_full_block block c
  = bind (ref_list_to_args (transactions_generator_ref_list block))
         (fun args => run_generator_with_args (Some s) args c).
Proof.
  intros Hg Hs Hp; unfold run_full_block; rewrite Hg.
  apply bind_pointwise; intros args _.
  unfold run_generator_with_args, pure.
  destruct s as [|ch s]; [contradiction Hs; reflexivity|].
  cbn [falsy fromhex_json]; rewrite Hp, bind_unfold; simpl.
  apply pair_eta.
Qed.

End EntryPoints.

Section Printing.

Context {types : Types} {chia : Chia}.

Lemma prints_app (t u : list event) : prints (t ++ u) = prints t ++ prints u.
Proof. apply flat_map_app. Qed.

Lemma run_generator_prints (g : BlockGenerator) (c : ConsensusConstants) :
  prints (trace (run_generator g c)) = [].
Proof.
  destruct (run_generator_events g c) as (t & -> & F); simpl.
  apply (coin_events_quiet F).
Qed.

Lemma run_generator_with_args_prints (generator_program_hex : option pystr)
    (args : list GeneratorArg) (c : ConsensusConstants) :
  prints (trace (run_generator_with_args generator_program_hex args c)) = [].
Proof.
  unfold run_generator_with_args, pure.
  destruct (falsy generator_program_hex); [reflexivity|].
  rewrite bind_unfold; simpl.
  destruct (fromhex_json generator_program_hex); simpl;
    [apply run_generator_prints|reflexivity].
Qed.

Lemma ref_list_to_args_prints (ref_list : list N) :
  prints (trace (ref_list_to_args ref_list)) = [].
Proof. apply (load_events_quiet (loop_events [] ref_list)). Qed.

(** X15: [run_json_block_file] prints at most once, as its last action,
    and only when every step before has succeeded: the constants and the
    block file are read, the reference list is loaded, the generator is
    run and every record is serialised.  What is printed is the list of
    the serialised records.  A run that raises has printed nothing. *)
Theorem X15_prints_once_and_only_on_success (file : File) :
  (forall e, outcome (run_json_block_file file) = Raise e ->
             prints (trace (run_json_block_file file)) = []) /\
  (forall u, outcome (run_json_block_file file) = Ok u ->
     exists constants j ref_list args generator_program_hex cats dicts t,
       load_constants = Ok constants /\ json_load file = Ok j /\
       get_transactions_generator_ref_list j = Ok ref_list /\
       outcome (ref_list_to_args ref_list) = Ok args /\
       get_transactions_generator j = Ok generator_program_hex /\
       outcome (run_generator_with_args generator_program_hex args constants)
       = Ok cats /\
       map_res cat_to_dict cats = Ok dicts /\
       trace (run_json_block_file file) = t ++ [EPrint (JList dicts)] /\
       prints t = []).
Proof.
  unfold run_json_block_file, get_config_and_constants, call, pure.
  rewrite bind_unfold; cbn [outcome trace fst snd].
  destruct load_constants as [constants|] eqn:Hc;
    [|split; [reflexivity|discriminate]].
  rewrite bind_unfold; cbn [outcome trace fst snd].
  destruct (json_load file) as [j|] eqn:Hj;
    [|split; [reflexivity|discriminate]].
  rewrite bind_unfold; cbn [outcome trace fst snd].
  destruct (get_transactions_generator_ref_list j) as [ref_list|] eqn:Hl;
    [|split; [reflexivity|discriminate]].
  rewrite bind_unfold.
  pose proof (ref_list_to_args_prints ref_list) as P1.
  destruct (outcome (ref_list_to_args ref_list)) as [args|] eqn:Ha;
    cbn [outcome trace fst snd];
    [|split; [intros; rewrite !prints_app, P1; reflexivity|discriminate]].
  rewrite bind_unfold; cbn [outcome trace fst snd].
  destruct (get_transactions_generator j) as [hex|] eqn:Hg;
    [|split; [intros; rewrite !prints_app, P1; reflexivity|discriminate]].
  rewrite bind_unfold.
  pose proof (run_generator_with_args_prints hex args constants) as P2.
  destruct (outcome (run_generator_with_args hex args constants))
    as [cats|] eqn:Hr; cbn [outcome trace fst snd];
    [|split; [intros; rewrite !prints_app, P1, P2; reflexivity|discriminate]].
  rewrite bind_unfold; cbn [outcome trace fst snd].
  destruct (map_res cat_to_dict cats) as [dicts|] eqn:Hd;
    [|split; [intros; rewrite !prints_app, P1, P2; reflexivity|discriminate]].
  split; [discriminate|intros u _].
  exists constants, j, ref_list, args, hex, cats, dicts.
  eexists; repeat (split; [first [assumption|reflexivity]|]).
  split.
  - rewrite !app_assoc; reflexivity.
  - rewrite !prints_app, P1, P2; reflexivity.
Qed.

(** X16: when [run_json_block_file] executes a generator, its program is
    decoded from the text of [transactions_generator] in the block file,
    a text that is not empty, and its arguments are those loaded for the
    reference list of the file, one for each height, in order. *)
Theorem X16_block_file_executes_its_generator (file : File)
    (g : BlockGenerator) :
  In (EGenerator g) (trace (run_json_block_file file)) ->
  exists j ref_list s,
    json_load file = Ok j /\
    get_transactions_generator_ref_list j = Ok ref_list /\
    Forall2 loaded ref_list (generator_refs g) /\
    get_transactions_generator j = Ok (Some s) /\ s <> [] /\
    fromhex s = Ok (program g).
Proof.
  unfold run_json_block_file, get_config_and_constants, call, pure.
  intros H.
  apply bind_in in H; destruct H as [[H|[]]|(constants & _ & H)];
    [discriminate H|].
  apply bind_in in H; destruct H as [[H|[]]|(j & Hj & H)];
    [discriminate H|].
  apply bind_in in H; destruct H as [[]|(ref_list & Hl & H)].
  apply bind_in in H; destruct H as [H|(args & Ha & H)];
    [contradiction (@not_load_event _ g _ (loop_events [] ref_list) H)|].
  apply bind_in in H; destruct H as [[]|(hex & Hg & H)].
  apply bind_in in H; destruct H as [H|(cats & _ & H)].
  - unfold run_generator_with_args, pure in H.
    destruct hex as [[|ch s]|]; cbn [falsy] in H; try contradiction H.
    apply bind_in in H; destruct H as [[]|(p & Hp & H)].
    apply run_generator_in in H; subst g; cbn [program generator_refs].
    destruct (loop_ok_inv _ _ Ha) as (new & -> & L & _).
    exists j, ref_list, (ch :: s); repeat split; auto; discriminate.
  - apply bind_in in H; destruct H as [[]|(dicts & _ & [H|[]])].
    discriminate H.
Qed.

End Printing.

(** ** More on serialisation *)

Lemma hex_digit_inj (n m : N) :
  (n < 16)%N -> (m < 16)%N -> hex_digit n = hex_digit m -> n = m.
Proof.
  unfold hex_digit; intros Hn Hm.
  destruct (N.ltb_spec n 10), (N.ltb_spec m 10); lia.
Qed.

Lemma hex_byte_inj (x y : byte) : hex_byte x = hex_byte y -> x = y.
Proof.
  unfold hex_byte; intros [= Hq Hr].
  pose proof (Byte.to_N_bounded x); pose proof (Byte.to_N_bounded y).
  apply hex_digit_inj in Hq;
    [|apply N.Div0.div_lt_upper_bound; lia
     |apply N.Div0.div_lt_upper_bound; lia].
  apply hex_digit_inj in Hr; [|apply N.mod_lt; discriminate ..].
  apply to_N_inj.
  rewrite (N.div_mod (Byte.to_N x) 16), (N.div_mod (Byte.to_N y) 16), Hq, Hr
    by discriminate.
  reflexivity.
Qed.

(** The encoding determines the bytes. *)
Lemma hex_inj (a b : bytes) : hex a = hex b -> a = b.
Proof.
  revert b; induction a as [|x a IH]; intros [|y b] H;
    try reflexivity; try discriminate H.
  rewrite !hex_cons in H; unfold hex_byte at 1 2 in H; simpl in H.
  injection H as H1 H2 H3.
  f_equal; [apply hex_byte_inj; unfold hex_byte; congruence|apply IH, H3].
Qed.

Lemma map_inj {A B} (f : A -> B) (l l' : list A) :
  (forall x y, f x = f y -> x = y) -> map f l = map f l' -> l = l'.
Proof.
  intros I; revert l'; induction l as [|x l IH]; intros [|y l'] H;
    try reflexivity; try discriminate H.
  simpl in H; injection H as H1 H2; f_equal; auto.
Qed.

Lemma map_res_inj {A B} (f : A -> res B) (l l' : list A) (ys : list B) :
  (forall x y z, f x = Ok z -> f y = Ok z -> x = y) ->
  map_res f l = Ok ys -> map_res f l' = Ok ys -> l = l'.
Proof.
  intros I; revert l' ys; induction l as [|x l IH]; intros [|y l'] ys;
    simpl.
  - reflexivity.
  - intros [= <-]; destruct (f y); simpl; [|discriminate].
    destruct (map_res f l'); discriminate.
  - destruct (f x); simpl; [|discriminate].
    destruct (map_res f l); simpl; [|discriminate].
    intros [= <-]; discriminate.
  - destruct (f x) as [u|] eqn:Hx; simpl; [|discriminate].
    destruct (map_res f l) as [us|] eqn:Hl; simpl; [|discriminate].
    intros [= <-].
    destruct (f y) as [v|] eqn:Hy; simpl; [|discriminate].
    destruct (map_res f l') as [vs|] eqn:Hl'; simpl; [|discriminate].
    intros [= -> ->]; f_equal; eauto.
Qed.

Section Dictionaries.

Context {types : Types} {chia : Chia}.

Hypothesis opcode_name_inj :
  forall a b : ConditionOpcode, opcode_name a = opcode_name b -> a = b.

Lemma condition_with_args_to_dict_inj (a b : ConditionWithArgs) :
  condition_with_args_to_dict a = condition_with_args_to_dict b -> a = b.
Proof.
  destruct a as [oa va], b as [ob vb]; unfold condition_with_args_to_dict.
  simpl; intros [= Ho Hv].
  apply opcode_name_inj in Ho.
  apply map_inj in Hv; [congruence|].
  intros x y [= H]; apply hex_inj, H.
Qed.

Lemma npc_to_dict_inj (a b : NPC) (d : json) :
  npc_to_dict a = Ok d -> npc_to_dict b = Ok d -> a = b.
Proof.
  destruct a as [na pa ca], b as [nb pb cb]; unfold npc_to_dict; simpl.
  destruct (map_res _ ca) as [da|] eqn:Ha; simpl; [|discriminate].
  destruct (map_res _ cb) as [db|] eqn:Hb; simpl; [|discriminate].
  intros [= <-] [= Hn Hc Hp].
  apply hex_inj in Hn; apply hex_inj in Hp; subst.
  f_equal.
  eapply map_res_inj; [|exact Ha|exact Hb].
  intros [ox lx] [oy ly] z; unfold condition_list_to_dict; simpl.
  destruct (forallb _ lx); simpl; [|discriminate].
  destruct (forallb _ ly); simpl; [|discriminate].
  intros [= <-] [= Ho Hl].
  apply opcode_name_inj in Ho.
  apply map_inj in Hl; [congruence|].
  apply condition_with_args_to_dict_inj.
Qed.

(** X17: serialisation loses nothing.  When the names of the condition
    opcodes are distinct, two records that serialise to the same
    dictionary are the same record: the tail hash, the memo, the coin
    name, the puzzle hash, and every group, opcode and argument of the
    conditions can be read back. *)
Theorem X17_serialisation_is_injective (a b : CAT) (d : json) :
  cat_to_dict a = Ok d -> cat_to_dict b = Ok d -> a = b.
Proof.
  destruct a as [ta ma na], b as [tb mb nb]; unfold cat_to_dict; simpl.
  destruct (npc_to_dict na) as [da|] eqn:Ha; simpl; [|discriminate].
  destruct (npc_to_dict nb) as [db|] eqn:Hb; simpl; [|discriminate].
  intros [= <-] [= -> -> ->].
  f_equal; eapply npc_to_dict_inj; eassumption.
Qed.

End Dictionaries.

Section MoreRuns.

Context {types : Types} {chia : Chia}.

(** X18: a block file whose generator is null or the empty string, and
    whose reference list is loadable, prints the empty array: the heights
    are loaded all the same, and no generator is executed. *)
Theorem X18_block_file_without_generator (file : File)
    (constants : ConsensusConstants) (j : Json) (ref_list : list N)
    (generator_program_hex : option pystr) :
  load_constants = Ok constants -> json_load file = Ok j ->
  get_transactions_generator_ref_list j = Ok ref_list ->
  Forall loadable ref_list ->
  get_transactions_generator j = Ok generator_program_hex ->
  generator_program_hex = None \/ generator_program_hex = Some (str "") ->
  outcome (run_json_block_file file) = Ok tt /\
  prints (trace (run_json_block_file file)) = [JList []] /\
  loads (trace (run_json_block_file file)) = ref_list /\
  executions (trace (run_json_block_file file)) = [].
Proof.
  intros Hc Hj Hl P Hg Hf.
  assert (F : falsy generator_program_hex = true)
    by (destruct Hf as [->| ->]; reflexivity).
  destruct (loadable_all_loaded P) as [args Fa].
  pose proof (loop_loaded [] Fa) as Ha; cbn [app] in Ha.
  destruct (loop_ok_inv _ _ Ha) as (new & _ & _ & L).
  pose proof (loop_events [] ref_list) as E.
  destruct (load_events_quiet E) as (Ex & Pr & _ & _).
  fold (ref_list_to_args ref_list) in *.
  unfold run_json_block_file, get_config_and_constants, call, pure.
  rewrite bind_unfold; cbn [outcome trace fst snd]; rewrite Hc; cbn iota beta.
  rewrite bind_unfold; cbn [outcome trace fst snd]; rewrite Hj; cbn iota beta.
  rewrite bind_unfold; cbn [outcome trace fst snd]; rewrite Hl; cbn iota beta.
  rewrite bind_unfold, Ha; cbn iota beta.
  rewrite bind_unfold; cbn [outcome trace fst snd]; rewrite Hg; cbn iota beta.
  unfold run_generator_with_args; rewrite F.
  cbn [bind ret map_res app outcome trace fst snd].
  unfold prints, loads, executions in *.
  repeat split; simpl; rewrite flat_map_app; simpl;
    rewrite ?Ex, ?Pr, ?L, ?app_nil_r; reflexivity.
Qed.

(** X19: the record of a coin is computed from its name alone: the
    conditions and the puzzle hash that the engine reports for the coin
    play no part in the calls made, in whether the coin is processed, or
    in the tail hash and the memo of its record. *)
Theorem X19_record_depends_on_coin_name (g : BlockGenerator)
    (c : ConsensusConstants) (cat_list : list CAT) (n n' : NPC) :
  coin_name n = coin_name n' ->
  trace (run_npc g c cat_list n) = trace (run_npc g c cat_list n') /\
  (forall e, outcome (run_npc g c cat_list n) = Raise e ->
             outcome (run_npc g c cat_list n') = Raise e) /\
  (forall l, outcome (run_npc g c cat_list n) = Ok l ->
     exists l', outcome (run_npc g c cat_list n') = Ok l' /\
                map tail_hash l' = map tail_hash l /\
                map memo l' = map memo l).
Proof.
  intros H; rewrite !run_npc_unfold.
  assert (R : resolve g c n' = resolve g c n)
    by (unfold resolve; rewrite H; reflexivity).
  rewrite R, H.
  destruct (resolve g c n) as [[[k p] s]|?];
    [|split; [reflexivity|split; [auto|discriminate]]].
  destruct (match_cat_puzzle p) as [[[|] args]|?];
    [| |split; [reflexivity|split; [auto|discriminate]]].
  - destruct (unpack_tail_hash args) as [t|?];
      [|split; [reflexivity|split; [auto|discriminate]]].
    cbn [trace outcome fst snd].
    destruct (outcome (extract_memo p s)) as [m|?];
      (split; [reflexivity|split; [auto; discriminate|]]);
      [|discriminate].
    intros l [= <-]; eexists; split; [reflexivity|].
    rewrite !map_app; split; reflexivity.
  - split; [reflexivity|split; [discriminate|]].
    intros l [= <-]; exists cat_list; repeat split.
Qed.

End MoreRuns.

Section Assertion.

Context {types : Types} {chia : Chia}.

(** X20: a record is serialised exactly when its coin satisfies the
    grouping invariant, and serialisation can fail in no other way than by
    the assertion of line 77. *)
Theorem X20_serialisation_fails_only_by_assertion (cat : CAT) :
  ((exists d, cat_to_dict cat = Ok d) <-> grouped (npc cat)) /\
  (forall e, cat_to_dict cat = Raise e -> e = AssertionError).
Proof.
  unfold cat_to_dict, npc_to_dict, grouped.
  destruct (map_res _ (conditions (npc cat))) as [cs|e'] eqn:E; simpl.
  - split; [|discriminate].
    split; [intros _|eauto].
    apply map_res_ok_inv in E.
    eapply Forall_impl; [|exact E].
    intros group [y Hy]; apply grouping_test.
    unfold condition_list_to_dict in Hy.
    destruct (forallb _ (snd group)); [reflexivity|discriminate Hy].
  - apply map_res_raise in E; destruct E as (group & Hin & Hg).
    unfold condition_list_to_dict in Hg.
    destruct (forallb _ (snd group)) eqn:T; simpl in Hg; [discriminate Hg|].
    injection Hg as <-.
    split; [|intros e [= <-]; reflexivity].
    split; [intros [d H]; discriminate H|].
    intros G; rewrite Forall_forall in G.
    specialize (G _ Hin); apply grouping_test in G.
    rewrite G in T; discriminate T.
Qed.

End Assertion.

(** ** Runs in the small world *)

Import Toy.

Ltac processed :=
  unfold processable; do 5 eexists;
  split; [reflexivity|split; [reflexivity|]];
  first [ discriminate
        | intros _; do 2 eexists; split; reflexivity ].

Lemma C1_memo_of_first_qualifying_condition_witness :
  resolve (chia := chia fair) the_generator constants (spend coin1)
  = puzzle_of coin1 /\
  match_cat_puzzle (Chia := chia fair) (PuzzleOf [x01])
  = Ok (true, args_of coin1) /\
  run (Chia := chia fair) (PuzzleOf [x01]) (SolutionOf [x01])
  = Ok (OutputOf [x01]) /\
  iter (as_python (Chia := chia fair) (OutputOf [x01]))
  = Ok ([plain] ++ with_memo hello :: [with_memo [xff]]) /\
  Forall (skipped (chia := chia fair)) [plain] /\
  memo_payload (chia := chia fair) (with_memo hello) = Some [PBytes hello] /\
  memo_of_payload [PBytes hello] = Ok (str "hello") /\
  outcome (run_npc (chia := chia fair) the_generator constants []
             (spend coin1))
  = Ok [record_of fair (str "hello") coin1].
Proof.
  assert (S : Forall (skipped (chia := chia fair)) [plain])
    by (repeat constructor).
  repeat (split; [first [reflexivity | exact S]|]).
  exact (proj1 (proj2 (C1_memo_of_first_qualifying_condition
                         (chia := chia fair) the_generator constants []
                         (spend coin1) (tail_hash := TailOf [x01])
                         eq_refl eq_refl eq_refl eq_refl eq_refl))
               [plain] (with_memo hello) [with_memo [xff]] [PBytes hello]
               (str "hello") eq_refl S eq_refl eq_refl).
Defined.

Lemma C2_tail_hash_drops_two_characters_witness :
  execute (chia := chia fair) the_generator constants = Ok (result_of fair) /\
  outcome (run_generator (chia := chia fair) the_generator constants)
  = Ok [record_of fair (str "hello") coin1; record_of fair (str "") coin3;
        record_of fair (str "") coin4] /\
  hex (to_bytes (Chia := chia fair) (TailOf [x01])) = str "a0abcd01" /\
  tail_hash (record_of fair (str "hello") coin1) = str "abcd01" /\
  Forall (fun cat =>
            exists k puzzle solution a t b,
              resolve (chia := chia fair) the_generator constants (npc cat)
              = Ok (k, puzzle, solution) /\
              match_cat_puzzle (Chia := chia fair) puzzle
              = Ok (true, [a; t; b]) /\
              tail_hash cat = skipn 2 (hex (to_bytes (Chia := chia fair) t)) /\
              hex (to_bytes (Chia := chia fair) t)
              = firstn 2 (hex (to_bytes (Chia := chia fair) t))
                ++ tail_hash cat /\
              Forall (fun ch => In ch (str "0123456789abcdef"))
                     (tail_hash cat))
         [record_of fair (str "hello") coin1; record_of fair (str "") coin3;
          record_of fair (str "") coin4].
Proof.
  repeat (split; [reflexivity|]).
  exact (proj2 (C2_tail_hash_drops_two_characters
                  (chia := chia fair) the_generator constants
                  (r := result_of fair) eq_refl eq_refl)).
Defined.

Lemma C3_execution_error_aborts_witness :
  execute (chia := chia failed) the_generator constants
  = Ok {| error := Some 5%N; npc_list := []; cost := 0 |} /\
  trace (run_generator (chia := chia failed) the_generator constants)
  = [EGenerator the_generator] /\
  outcome (run_generator (chia := chia failed) the_generator constants)
  = Raise (ConsensusError 5).
Proof.
  destruct (C3_execution_error_aborts (chia := chia failed)
              the_generator constants
              (r := {| error := Some 5%N; npc_list := []; cost := 0 |})
              (code := 5%N) eq_refl eq_refl) as (T & _ & E).
  exact (conj eq_refl (conj T (E eq_refl))).
Defined.

Lemma C4_absent_generator_asymmetry_witness :
  transactions_generator block7 = None /\
  run_full_block (chia := chia fair) block7 constants
  = ([EOpen 7; ELoad 7%N],
     Raise (RuntimeError "transactions_generator of FullBlock is null")) /\
  run_generator_with_args (chia := chia fair) (Some (str "")) [] constants
  = ([], Ok []).
Proof.
  destruct (C4_absent_generator_asymmetry (chia := chia fair) block7
              constants [] eq_refl) as (_ & R & _ & E & _).
  split; [reflexivity|split; [|exact E]].
  rewrite (pair_eta (run_full_block (chia := chia fair) block7 constants)).
  rewrite (R _ eq_refl); reflexivity.
Defined.

Lemma C5_one_record_per_matching_coin_witness :
  execute (chia := chia fair) the_generator constants = Ok (result_of fair) /\
  Forall (processable (chia := chia fair) the_generator constants)
         (npc_list (result_of fair)) /\
  filter (matches (chia := chia fair) the_generator constants)
         (npc_list (result_of fair))
  = [spend coin1; spend coin3; spend coin4] /\
  exists cats,
    outcome (run_generator (chia := chia fair) the_generator constants)
    = Ok cats /\
    map npc cats
    = filter (matches (chia := chia fair) the_generator constants)
             (npc_list (result_of fair)).
Proof.
  assert (P : Forall (processable (chia := chia fair) the_generator constants)
                     (npc_list (result_of fair)))
    by (repeat (apply Forall_cons; [processed|]); apply Forall_nil).
  split; [reflexivity|split; [exact P|split; [reflexivity|]]].
  exact (proj1 (C5_one_record_per_matching_coin
                  (chia := chia fair) the_generator constants
                  (r := result_of fair) eq_refl eq_refl) P).
Defined.

(** C6 does not hold as a recovery per coin.  In the world [garbled] the
    first and the third coin each give a record and the memo of the second
    does not decode: the run stops at the second coin and returns no list
    at all. *)
Lemma C6_counterexample :
  records (chia := chia garbled) the_generator constants (spend coin3)
  = [record_of garbled (str "") coin3] /\
  records (chia := chia garbled) the_generator constants (spend coin1)
  = [record_of garbled (str "hello") coin1] /\
  decode [xff] = Raise UnicodeDecodeError /\
  run_generator (chia := chia garbled) the_generator constants
  = ([EGenerator the_generator;
      EResolve [x03]; EMatch (PuzzleOf [x03]);
      ERun (PuzzleOf [x03]) (SolutionOf [x03]);
      EResolve [x02]; EMatch (PuzzleOf [x02]);
      ERun (PuzzleOf [x02]) (SolutionOf [x02])],
     Raise UnicodeDecodeError).
Proof. repeat split. Qed.

Lemma C6_invalid_memo_aborts_the_run_witness :
  execute (chia := chia garbled) the_generator constants
  = Ok (result_of garbled) /\
  npc_list (result_of garbled)
  = [spend coin3] ++ spend garbled_coin :: [spend coin1] /\
  Forall (processable (chia := chia garbled) the_generator constants)
         [spend coin3] /\
  resolve (chia := chia garbled) the_generator constants (spend garbled_coin)
  = puzzle_of garbled_coin /\
  match_cat_puzzle (Chia := chia garbled) (PuzzleOf [x02])
  = Ok (true, args_of garbled_coin) /\
  run (Chia := chia garbled) (PuzzleOf [x02]) (SolutionOf [x02])
  = Ok (OutputOf [x02]) /\
  iter (as_python (Chia := chia garbled) (OutputOf [x02]))
  = Ok ([plain] ++ with_memo [xff] :: []) /\
  Forall (skipped (chia := chia garbled)) [plain] /\
  memo_payload (chia := chia garbled) (with_memo [xff]) = Some [PBytes [xff]] /\
  utf8_decode (map Byte.to_N [xff]) = None /\
  outcome (run_generator (chia := chia garbled) the_generator constants)
  = Raise UnicodeDecodeError.
Proof.
  assert (P : Forall (processable (chia := chia garbled) the_generator
                        constants) [spend coin3])
    by (apply Forall_cons; [processed|apply Forall_nil]).
  assert (S : Forall (skipped (chia := chia garbled)) [plain])
    by (repeat constructor).
  repeat (split; [first [reflexivity | exact P | exact S]|]).
  exact (proj1 (@C6_invalid_memo_aborts_the_run
                  _ (chia garbled) the_generator constants
                  (result_of garbled) [spend coin3] [spend coin1]
                  (spend garbled_coin) 0%N (PuzzleOf [x02]) (SolutionOf [x02])
                  (TailOf [x02]) (OutputOf [x02]) (args_of garbled_coin)
                  [plain] [] [] (with_memo [xff]) [xff]
                  eq_refl eq_refl eq_refl P eq_refl eq_refl eq_refl eq_refl
                  eq_refl S eq_refl eq_refl)).
Defined.


Lemma C8_every_coin_is_resolved_witness :
  execute (chia := Clvm.chia [Clvm.coin1; Clvm.coin2; Clvm.coin3])
    Clvm.the_generator Clvm.constants
  = Ok (Clvm.result_of [Clvm.coin1; Clvm.coin2; Clvm.coin3]) /\
  match_cat_puzzle (Chia := Clvm.chia [Clvm.coin1; Clvm.coin2; Clvm.coin3])
    Clvm.none
  = Raise AttributeError /\
  npc_list (Clvm.result_of [Clvm.coin1; Clvm.coin2; Clvm.coin3])
  = [Clvm.spend Clvm.coin1] ++ Clvm.spend Clvm.coin2
    :: [Clvm.spend Clvm.coin3] /\
  Forall (processable (chia := Clvm.chia [Clvm.coin1; Clvm.coin2; Clvm.coin3])
            Clvm.the_generator Clvm.constants)
         [Clvm.spend Clvm.coin1] /\
  resolve (chia := Clvm.chia [Clvm.coin1; Clvm.coin2; Clvm.coin3])
    Clvm.the_generator Clvm.constants (Clvm.spend Clvm.coin2)
  = Ok (1%N, Clvm.none, Clvm.none) /\
  run_generator (chia := Clvm.chia [Clvm.coin1; Clvm.coin2; Clvm.coin3])
    Clvm.the_generator Clvm.constants
  = ([EGenerator Clvm.the_generator;
      EResolve [x01]; EMatch Clvm.puzzle1; ERun Clvm.puzzle1 Clvm.solution;
      EResolve [x02]; EMatch Clvm.none],
     Raise AttributeError).
Proof.
  assert (P : Forall (processable
                        (chia := Clvm.chia [Clvm.coin1; Clvm.coin2; Clvm.coin3])
                        Clvm.the_generator Clvm.constants)
                     [Clvm.spend Clvm.coin1])
    by (apply Forall_cons; [processed|apply Forall_nil]).
  repeat (split; [first [reflexivity | exact P]|]).
  rewrite (pair_eta (run_generator _ _)).
  rewrite (proj1 (proj2 (proj2 (@C8_every_coin_is_resolved
             _ (Clvm.chia [Clvm.coin1; Clvm.coin2; Clvm.coin3])
             Clvm.the_generator Clvm.constants
             (Clvm.result_of [Clvm.coin1; Clvm.coin2; Clvm.coin3])
             Clvm.none AttributeError eq_refl eq_refl eq_refl)))
             [Clvm.spend Clvm.coin1] (Clvm.spend Clvm.coin2)
             [Clvm.spend Clvm.coin3] 1%N eq_refl P eq_refl).
  reflexivity.
Defined.

Lemma C9_reference_list_is_loaded_first_witness :
  Forall (loadable (chia := chia fair)) [7%N] /\
  open_height (Chia := chia fair) 8 = None /\
  transactions_generator block78 = None /\
  outcome (run_full_block (chia := chia fair) block78 constants)
  = Raise FileNotFoundError /\
  get_transactions_generator (Chia := chia fair) (None, [7; 8]%N) = Ok None /\
  outcome (run_json_block_file (chia := chia fair) 0%N)
  = Raise FileNotFoundError.
Proof.
  assert (L : Forall (loadable (chia := chia fair)) [7%N]).
  { apply Forall_cons; [|apply Forall_nil].
    exists 7%N, (Some (str "ff01"), []), (str "ff01"), (str "ff01").
    repeat split. }
  destruct (@C9_reference_list_is_loaded_first _ (chia fair)
              [7%N] [] 8%N L eq_refl) as (F & J & _).
  split; [exact L|split; [reflexivity|split; [reflexivity|]]].
  split; [exact (proj1 (F block78 constants eq_refl))|].
  split; [reflexivity|].
  exact (proj1 (J 0%N constants (None, [7; 8]%N) eq_refl eq_refl eq_refl)).
Defined.

(** C10 does not hold: the puzzle of this coin returns
    [((51 1 2 ()) (51 1 2 (0x00..00 "hello")))]; the first condition is a
    CREATE_COIN condition of four elements whose fourth element is empty,
    the loop sees that element as the empty byte string, passes over the
    condition and takes the memo from the second one. *)
Lemma C10_counterexample :
  clvm_as_python Clvm.nil_fourth = Clvm.nil_fourth_seen /\
  iter (as_python (Chia := Clvm.chia [Clvm.coin1]) Clvm.returned1)
  = Ok [Clvm.nil_fourth_seen; Clvm.with_hello_seen] /\
  outcome (extract_memo (chia := Clvm.chia [Clvm.coin1]) Clvm.puzzle1
             Clvm.solution)
  = Ok (str "hello") /\
  run_generator (chia := Clvm.chia [Clvm.coin1]) Clvm.the_generator
    Clvm.constants
  = ([EGenerator Clvm.the_generator; EResolve [x01]; EMatch Clvm.puzzle1;
      ERun Clvm.puzzle1 Clvm.solution],
     Ok [Clvm.record1]).
Proof. repeat split. Qed.

Lemma C10_empty_fourth_element_is_passed_over_witness :
  resolve (chia := Clvm.chia [Clvm.coin1]) Clvm.the_generator Clvm.constants
    (Clvm.spend Clvm.coin1)
  = Ok (0%N, Clvm.puzzle1, Clvm.solution) /\
  match_cat_puzzle (Chia := Clvm.chia [Clvm.coin1]) Clvm.puzzle1
  = Ok (true, Clvm.args1) /\
  run (Chia := Clvm.chia [Clvm.coin1]) Clvm.puzzle1 Clvm.solution
  = Ok Clvm.returned1 /\
  as_python (Chia := Clvm.chia [Clvm.coin1]) Clvm.returned1
  = clvm_as_python Clvm.conditions_returned /\
  iter (clvm_as_python Clvm.conditions_returned)
  = Ok ([] ++ Clvm.nil_fourth_seen :: [Clvm.with_hello_seen]) /\
  scan_condition (chia := Clvm.chia [Clvm.coin1]) (str "")
    Clvm.nil_fourth_seen
  = Ok Next /\
  outcome (extract_memo (chia := Clvm.chia [Clvm.coin1]) Clvm.puzzle1
             Clvm.solution)
  = Ok (str "hello") /\
  outcome (run_npc (chia := Clvm.chia [Clvm.coin1]) Clvm.the_generator
             Clvm.constants [] (Clvm.spend Clvm.coin1))
  = Ok [Clvm.record1].
Proof.
  destruct (@C10_empty_fourth_element_is_passed_over
              _ (Clvm.chia [Clvm.coin1]) Clvm.the_generator Clvm.constants []
              (Clvm.spend Clvm.coin1) 0%N Clvm.puzzle1 Clvm.solution
              Clvm.tail1 Clvm.returned1 Clvm.args1
              Clvm.conditions_returned [] [Clvm.with_hello_seen] []
              (PBytes [x01]) (PBytes [x02]) (PBytes [])
              eq_refl eq_refl eq_refl eq_refl eq_refl eq_refl
              (Forall_nil _))
    as (_ & _ & H).
  destruct (H eq_refl) as (F & X & R).
  exact (conj eq_refl (conj eq_refl (conj eq_refl (conj eq_refl
           (conj eq_refl (conj (F (str "")) (conj X R))))))).
Defined.

(** The end-to-end scenarios. *)

(** No coin is spent. *)
Example scenario_no_spend :
  run_generator (chia := chia (world_of [])) the_generator constants
  = ([EGenerator the_generator], Ok []).
Proof. reflexivity. Qed.

(** One CAT coin whose solution creates a coin with the memo "hello". *)
Example scenario_cat_with_memo :
  run_generator (chia := chia (world_of [cat_coin x09 [with_memo hello]]))
    the_generator constants
  = ([EGenerator the_generator; EResolve [x09]; EMatch (PuzzleOf [x09]);
      ERun (PuzzleOf [x09]) (SolutionOf [x09])],
     Ok [ {| tail_hash := str "abcd09"; memo := str "hello";
             npc := spend (cat_coin x09 [with_memo hello]) |} ]).
Proof. reflexivity. Qed.

(** One coin whose puzzle is not a CAT: nothing is run. *)
Example scenario_no_match :
  run_generator (chia := chia (world_of [coin2])) the_generator constants
  = ([EGenerator the_generator; EResolve [x02]; EMatch (PuzzleOf [x02])],
     Ok []).
Proof. reflexivity. Qed.

(** A block file without a generator whose reference list has a file for
    every height: the empty array is printed. *)
Example scenario_empty_file :
  run_json_block_file (chia := chia fair) 1%N
  = ([EConfig; ELoad 1%N; EOpen 7; ELoad 7%N; EPrint (JList [])], Ok tt).
Proof. reflexivity. Qed.

(** A record whose NPC breaks the grouping invariant is not serialised:
    the assertion fails. *)
Example scenario_ungrouped_npc :
  cat_to_dict (chia := chia fair) mixed_record = Raise AssertionError.
Proof. reflexivity. Qed.

(** A record as it is printed. *)
Example scenario_record_printed :
  cat_to_dict (chia := chia fair)
    {| tail_hash := str "abcd02"; memo := str "hi"; npc := spend coin2 |}
  = Ok (JDict [ (str "tail_hash", JStr (str "abcd02"));
                (str "memo", JStr (str "hi"));
                (str "npc",
                 JDict [ (str "coin_name", JStr (str "02"));
                         (str "conditions", JList []);
                         (str "puzzle_hash", JStr (str "")) ]) ]).
Proof. reflexivity. Qed.

(** The decoder on the euro sign, on an overlong form, on a surrogate and
    on a value above U+10FFFF. *)
Example decode_samples :
  decode [xe2; x82; xac] = Ok [8364%N] /\
  decode [xc0; x80] = Raise UnicodeDecodeError /\
  decode [xed; xa0; x80] = Raise UnicodeDecodeError /\
  decode [xf4; x90; x80; x80] = Raise UnicodeDecodeError.
Proof. repeat split. Qed.

(** ** More runs in the small world *)

Lemma X2_output_is_concatenation_witness :
  execute (chia := chia fair) the_generator constants = Ok (result_of fair) /\
  flat_map (records (chia := chia fair) the_generator constants)
           (npc_list (result_of fair))
  = fair_cats /\
  (outcome (run_generator (chia := chia fair) the_generator constants)
   = Ok fair_cats <->
   error (result_of fair) = None /\
   Forall (processable (chia := chia fair) the_generator constants)
          (npc_list (result_of fair)) /\
   fair_cats
   = flat_map (records (chia := chia fair) the_generator constants)
              (npc_list (result_of fair))).
Proof.
  split; [reflexivity|split; [reflexivity|]].
  exact (@X2_output_is_concatenation _ (chia fair) the_generator constants
           (result_of fair) fair_cats eq_refl).
Defined.

Lemma X3_one_puzzle_run_per_record_witness :
  execute (chia := chia fair) the_generator constants = Ok (result_of fair) /\
  outcome (run_generator (chia := chia fair) the_generator constants)
  = Ok fair_cats /\
  List.length (puzzle_runs
                 (trace (run_generator (chia := chia fair) the_generator
                           constants)))
  = 3.
Proof.
  split; [reflexivity|split; [reflexivity|]].
  exact (@X3_one_puzzle_run_per_record _ (chia fair) the_generator constants
           (result_of fair) fair_cats eq_refl eq_refl).
Defined.

Lemma X4_stops_at_first_failing_coin_witness :
  execute (chia := chia lost) the_generator constants = Ok (result_of lost) /\
  npc_list (result_of lost)
  = [spend coin1] ++ spend (lost_coin x02) :: [spend coin3] /\
  Forall (processable (chia := chia lost) the_generator constants)
         [spend coin1] /\
  ~ processable (chia := chia lost) the_generator constants
      (spend (lost_coin x02)) /\
  resolved (trace (run_generator (chia := chia lost) the_generator constants))
  = [[x01]; [x02]].
Proof.
  assert (P : Forall (processable (chia := chia lost) the_generator constants)
                     [spend coin1])
    by (apply Forall_cons; [processed|apply Forall_nil]).
  assert (N : ~ processable (chia := chia lost) the_generator constants
                  (spend (lost_coin x02)))
    by (intros (k & p & s & m & a & Hr & _); discriminate Hr).
  split; [reflexivity|split; [reflexivity|split; [exact P|split; [exact N|]]]].
  exact (proj2 (@X4_stops_at_first_failing_coin _ (chia lost) the_generator
                  constants (result_of lost) [spend coin1] [spend coin3]
                  (spend (lost_coin x02)) eq_refl eq_refl eq_refl P N)).
Defined.

Lemma X5_wrong_number_of_curried_arguments_witness :
  resolve (chia := short_of_arguments fair) the_generator constants
    (spend coin1)
  = puzzle_of coin1 /\
  match_cat_puzzle (Chia := short_of_arguments fair) (PuzzleOf [x01])
  = Ok (true, [CatMod; PuzzleOf [x01]]) /\
  List.length [CatMod; PuzzleOf [x01]] <> 3 /\
  run_npc (chia := short_of_arguments fair) the_generator constants []
    (spend coin1)
  = ([EResolve [x01]; EMatch (PuzzleOf [x01])], Raise ValueError).
Proof.
  assert (L : List.length [CatMod; PuzzleOf [x01]] <> 3) by discriminate.
  split; [reflexivity|split; [reflexivity|split; [exact L|]]].
  exact (@X5_wrong_number_of_curried_arguments _ (short_of_arguments fair)
           the_generator constants [] (spend coin1) 0%N (PuzzleOf [x01])
           (SolutionOf [x01]) [CatMod; PuzzleOf [x01]] eq_refl eq_refl L).
Defined.

Lemma X6_tail_hash_drops_first_byte_witness :
  execute (chia := chia fair) the_generator constants = Ok (result_of fair) /\
  outcome (run_generator (chia := chia fair) the_generator constants)
  = Ok fair_cats /\
  to_bytes (Chia := chia fair) (TailOf [x01]) = [xa0; xab; xcd; x01] /\
  map tail_hash fair_cats = [str "abcd01"; str "abcd03"; str "abcd04"] /\
  Forall (fun cat =>
            exists k puzzle solution a t b,
              resolve (chia := chia fair) the_generator constants (npc cat)
              = Ok (k, puzzle, solution) /\
              match_cat_puzzle (Chia := chia fair) puzzle
              = Ok (true, [a; t; b]) /\
              tail_hash cat = hex (tl (to_bytes (Chia := chia fair) t)) /\
              List.length (tail_hash cat)
              = 2 * (List.length (to_bytes (Chia := chia fair) t) - 1))
         fair_cats.
Proof.
  repeat (split; [reflexivity|]).
  exact (@X6_tail_hash_drops_first_byte _ (chia fair) the_generator constants
           (result_of fair) fair_cats eq_refl eq_refl).
Defined.

Lemma X8_conditions_without_memo_witness :
  Forall (fun condition =>
            exists op args,
              condition = PList (PBytes op :: args) /\
              (bytes_eqb op (CREATE_COIN (Chia := chia fair)) = false \/
               List.length args < 3 \/
               exists b, nth_error args 2 = Some (PBytes b))) memoless /\
  scan_conditions (chia := chia fair) (str "so far") memoless
  = Ok (str "so far").
Proof.
  assert (H : Forall (fun condition =>
            exists op args,
              condition = PList (PBytes op :: args) /\
              (bytes_eqb op (CREATE_COIN (Chia := chia fair)) = false \/
               List.length args < 3 \/
               exists b, nth_error args 2 = Some (PBytes b))) memoless).
  { apply Forall_cons; [|apply Forall_cons; [|apply Forall_cons;
                                               [|apply Forall_nil]]];
      do 2 eexists; (split; [reflexivity|]).
    - left; reflexivity.
    - right; left; simpl; lia.
    - right; right; eexists; reflexivity. }
  split; [exact H|].
  exact (@X8_conditions_without_memo _ (chia fair) (str "so far") memoless H).
Defined.

Lemma X9_elements_that_are_not_bytes_witness :
  (forall b, PList [PBytes hello] <> PBytes b) /\
  scan_condition (chia := chia fair) (str "")
    (PList [PBytes [x33]; PBytes [x01]; PBytes [x02];
            PList [PList [PBytes hello]]])
  = Raise AttributeError /\
  scan_condition (chia := chia fair) (str "")
    (PList [PBytes [x33]; PBytes [x01]; PBytes [x02];
            PList [PBytes zero32; PList [PBytes hello]]])
  = Raise AttributeError.
Proof.
  assert (H : forall b, PList [PBytes hello] <> PBytes b)
    by (intros b; discriminate).
  split; [exact H|].
  exact (@X9_elements_that_are_not_bytes _ (chia fair) (str "")
           (PBytes [x01]) (PBytes [x02]) (PList [PBytes hello]) [] [] H).
Defined.

Lemma X10_puzzle_returns_an_atom_witness :
  run (Chia := chia atoms) (PuzzleOf [x06]) (SolutionOf [x06])
  = Ok (OutputOf [x06]) /\
  as_python (Chia := chia atoms) (OutputOf [x06]) = PBytes [x01] /\
  outcome (extract_memo (chia := chia atoms) (PuzzleOf [x06])
             (SolutionOf [x06]))
  = Raise TypeError.
Proof.
  split; [reflexivity|split; [reflexivity|]].
  exact (@X10_puzzle_returns_an_atom _ (chia atoms) (PuzzleOf [x06])
           (SolutionOf [x06]) (OutputOf [x06]) [x01] eq_refl eq_refl).
Defined.

Lemma X12_loading_stops_at_first_failure_witness :
  Forall (loadable (chia := chia fair)) [7%N] /\
  ~ loadable (chia := chia fair) 8 /\
  loads (trace (ref_list_to_args (chia := chia fair) ([7] ++ 8 :: [7; 9])%N))
  = [7; 8]%N.
Proof.
  assert (L : Forall (loadable (chia := chia fair)) [7%N]).
  { apply Forall_cons; [|apply Forall_nil].
    exists 7%N, (Some (str "ff01"), []), (str "ff01"), (str "ff01").
    repeat split. }
  assert (N : ~ loadable (chia := chia fair) 8)
    by (intros (f & j & s & p & Hf & _); discriminate Hf).
  split; [exact L|split; [exact N|]].
  exact (proj2 (@X12_loading_stops_at_first_failure _ (chia fair)
                  [7%N] [7%N; 9%N] 8%N L N)).
Defined.

Lemma X13_full_block_executes_its_generator_witness :
  In (EGenerator generator_with_ref)
     (trace (run_full_block (chia := chia fair) block_with_generator
               constants)) /\
  transactions_generator block_with_generator
  = Some (program generator_with_ref) /\
  Forall2 (loaded (chia := chia fair))
          (transactions_generator_ref_list block_with_generator)
          (generator_refs generator_with_ref) /\
  executions (trace (run_full_block (chia := chia fair) block_with_generator
                       constants))
  = [generator_with_ref].
Proof.
  assert (H : In (EGenerator generator_with_ref)
                 (trace (run_full_block (chia := chia fair)
                           block_with_generator constants)))
    by (right; right; left; reflexivity).
  split; [exact H|].
  exact (@X13_full_block_executes_its_generator _ (chia fair)
           block_with_generator constants generator_with_ref H).
Defined.

Lemma X14_entry_points_agree_witness :
  transactions_generator block_with_generator = Some (str "ff01") /\
  str "ff01" <> [] /\
  fromhex (Chia := chia fair) (str "ff01") = Ok (str "ff01") /\
  run_full_block (chia := chia fair) block_with_generator constants
  = bind (ref_list_to_args (chia := chia fair) [7%N])
         (fun args =>
            run_generator_with_args (chia := chia fair) (Some (str "ff01"))
              args constants).
Proof.
  assert (H : str "ff01" <> []) by discriminate.
  split; [reflexivity|split; [exact H|split; [reflexivity|]]].
  exact (@X14_entry_points_agree _ (chia fair) block_with_generator constants
           (str "ff01") (str "ff01") eq_refl H eq_refl).
Defined.

Lemma X16_block_file_executes_its_generator_witness :
  In (EGenerator the_generator)
     (trace (run_json_block_file (chia := chia fair) 2%N)) /\
  exists j ref_list s,
    json_load (Chia := chia fair) 2%N = Ok j /\
    get_transactions_generator_ref_list (Chia := chia fair) j = Ok ref_list /\
    Forall2 (loaded (chia := chia fair)) ref_list
            (generator_refs the_generator) /\
    get_transactions_generator (Chia := chia fair) j = Ok (Some s) /\
    s <> [] /\
    fromhex (Chia := chia fair) s = Ok (program the_generator).
Proof.
  assert (H : In (EGenerator the_generator)
                 (trace (run_json_block_file (chia := chia fair) 2%N)))
    by (right; right; left; reflexivity).
  split; [exact H|].
  exact (@X16_block_file_executes_its_generator _ (chia fair) 2%N
           the_generator H).
Defined.

Lemma X17_serialisation_is_injective_witness :
  (forall a b : N, opcode_name (Chia := chia fair) a
                   = opcode_name (Chia := chia fair) b -> a = b) /\
  cat_to_dict (chia := chia fair) (record_of fair (str "hello") coin1)
  = cat_to_dict (chia := chia fair)
      {| tail_hash := str "abcd01"; memo := str "hello"; npc := spend coin1 |}
  /\
  record_of fair (str "hello") coin1
  = {| tail_hash := str "abcd01"; memo := str "hello"; npc := spend coin1 |}.
Proof.
  assert (I : forall a b : N, opcode_name (Chia := chia fair) a
                              = opcode_name (Chia := chia fair) b -> a = b)
    by (intros a b [= H]; exact H).
  split; [exact I|split; [reflexivity|]].
  destruct (cat_to_dict (chia := chia fair)
              (record_of fair (str "hello") coin1)) as [d|e] eqn:E;
    [|discriminate E].
  exact (@X17_serialisation_is_injective _ (chia fair) I
           (record_of fair (str "hello") coin1)
           {| tail_hash := str "abcd01"; memo := str "hello";
              npc := spend coin1 |} d E E).
Defined.

Lemma X18_block_file_without_generator_witness :
  load_constants (Chia := chia fair) = Ok constants /\
  json_load (Chia := chia fair) 1%N = Ok (None, [7%N]) /\
  Forall (loadable (chia := chia fair)) [7%N] /\
  outcome (run_json_block_file (chia := chia fair) 1%N) = Ok tt /\
  prints (trace (run_json_block_file (chia := chia fair) 1%N)) = [JList []] /\
  loads (trace (run_json_block_file (chia := chia fair) 1%N)) = [7%N] /\
  executions (trace (run_json_block_file (chia := chia fair) 1%N)) = [].
Proof.
  assert (L : Forall (loadable (chia := chia fair)) [7%N]).
  { apply Forall_cons; [|apply Forall_nil].
    exists 7%N, (Some (str "ff01"), []), (str "ff01"), (str "ff01").
    repeat split. }
  split; [reflexivity|split; [reflexivity|split; [exact L|]]].
  exact (@X18_block_file_without_generator _ (chia fair) 1%N constants
           (None, [7%N]) [7%N] None eq_refl eq_refl eq_refl L eq_refl
           (or_introl eq_refl)).
Defined.

Lemma X19_record_depends_on_coin_name_witness :
  coin_name (spend coin1) = coin_name coin1_bare /\
  conditions (spend coin1) <> conditions coin1_bare /\
  trace (run_npc (chia := chia fair) the_generator constants []
           (spend coin1))
  = trace (run_npc (chia := chia fair) the_generator constants [] coin1_bare)
  /\
  exists l',
    outcome (run_npc (chia := chia fair) the_generator constants []
               coin1_bare) = Ok l' /\
    map tail_hash l' = [str "abcd01"] /\ map memo l' = [str "hello"].
Proof.
  split; [reflexivity|split; [discriminate|]].
  destruct (@X19_record_depends_on_coin_name _ (chia fair) the_generator
              constants [] (spend coin1) coin1_bare eq_refl) as (T & _ & R).
  split; [exact T|].
  exact (R [record_of fair (str "hello") coin1] eq_refl).
Defined.
